(** * The content pipeline of index.js: fetch, segment, embed, answer

    A shallow embedding of the four stage functions [fetchContent],
    [segmentText], [generateEmbeddings], [generateGeminiResponse] and of
    the orchestrating [main], together with the part of JavaScript they
    rely on: dynamically typed values, truthiness, [typeof], property
    access, [JSON.stringify], and the string methods [startsWith],
    [includes], [trim], [substring] and [replace].

    Everything outside the process (the terminal, the two HTTP clients,
    the DOM parser, the generative model) is a field of a [world]; what
    the program does to it is recorded, in order, in a trace of events. *)

From Stdlib Require Import String Ascii DecimalString.
From Stdlib Require Import List NArith Arith Bool Lia.
Import ListNotations.

Set Implicit Arguments.
Set Warnings "-register-all".

(* ================================================================== *)
(** ** JavaScript strings *)

(** A JS string is the sequence of its UTF-16 code units; [length],
    [substring] and the search methods all count code units. *)
Definition jsstring := list N.

(** An ASCII literal of the source, as code units. *)
Definition u (s : string) : jsstring :=
  map N_of_ascii (list_ascii_of_string s).

Definition nl : jsstring := [10%N].
Definition dquote : jsstring := [34%N].

Fixpoint str_eqb (a b : jsstring) : bool :=
  match a, b with
  | [], [] => true
  | x :: a', y :: b' => (x =? y)%N && str_eqb a' b'
  | _, _ => false
  end.

(** [s.startsWith(p)] *)
Fixpoint startsWith (s p : jsstring) : bool :=
  match p, s with
  | [], _ => true
  | x :: p', y :: s' => (x =? y)%N && startsWith s' p'
  | _ :: _, [] => false
  end.

(** [s.indexOf(p)]: the position of the first occurrence, [None] for -1. *)
Fixpoint indexOf (s p : jsstring) : option nat :=
  if startsWith s p then Some 0
  else match s with
       | [] => None
       | _ :: s' => option_map S (indexOf s' p)
       end.

(** [s.includes(p)] *)
Definition includes (s p : jsstring) : bool :=
  match indexOf s p with Some _ => true | None => false end.

(** [s.substring(a, b)] with both arguments non-negative integers: each is
    clamped to the length, and the two are swapped when out of order. *)
Definition substring (s : jsstring) (a b : nat) : jsstring :=
  let len := length s in
  let a' := Nat.min a len in
  let b' := Nat.min b len in
  let from := Nat.min a' b' in
  let to := Nat.max a' b' in
  firstn (to - from) (skipn from s).

(** WhiteSpace and LineTerminator code units, as [trim] strips them:
    TAB, LF, VT, FF, CR, SP, NBSP, the Zs category, LS, PS and the BOM. *)
Definition is_space (c : N) : bool :=
  ((9 <=? c) && (c <=? 13) || (c =? 32) || (c =? 160) || (c =? 5760)
   || (8192 <=? c) && (c <=? 8202) || (c =? 8232) || (c =? 8233)
   || (c =? 8239) || (c =? 8287) || (c =? 12288) || (c =? 65279))%N.

Fixpoint trimStart (s : jsstring) : jsstring :=
  match s with
  | c :: s' => if is_space c then trimStart s' else s
  | [] => []
  end.

(** [s.trim()] *)
Definition trim (s : jsstring) : jsstring :=
  rev (trimStart (rev (trimStart s))).

(** [String.prototype.replace] with a string pattern: only the first
    occurrence is replaced, and the replacement text is a template in
    which [$$], [$&], [$`] and [$'] are expanded (GetSubstitution with no
    captures, so [$1], [$<] and a lone [$] stay as they are). *)
Definition dollar : N := 36%N.

Fixpoint getSubstitution (matched before after template : jsstring)
  : jsstring :=
  match template with
  | [] => []
  | c :: t =>
      if (c =? dollar)%N then
        match t with
        | d :: t' =>
            if (d =? dollar)%N then dollar :: getSubstitution matched before after t'
            else if (d =? 38)%N then matched ++ getSubstitution matched before after t'
            else if (d =? 96)%N then before ++ getSubstitution matched before after t'
            else if (d =? 39)%N then after ++ getSubstitution matched before after t'
            else c :: getSubstitution matched before after t
        | [] => [c]
        end
      else c :: getSubstitution matched before after t
  end.

Definition replace (s pattern replacement : jsstring) : jsstring :=
  match indexOf s pattern with
  | None => s
  | Some i =>
      let before := firstn i s in
      let after := skipn (i + length pattern) s in
      before ++ getSubstitution pattern before after replacement ++ after
  end.

(** [sep]-joined concatenation, as [Array.prototype.join] and the JSON
    serializer lay their parts out. *)
Fixpoint join (sep : jsstring) (parts : list jsstring) : jsstring :=
  match parts with
  | [] => []
  | [p] => p
  | p :: rest => p ++ sep ++ join sep rest
  end.

(** Decimal text of a non-negative integer ([String(n)] for an array
    length). *)
Definition decimal (n : nat) : jsstring :=
  u (NilZero.string_of_uint (Nat.to_uint n)).

(* ================================================================== *)
(** ** JavaScript values *)

(** A number.  The program does no arithmetic: a number is only tested
    for truthiness, compared with [0] and printed, so a non-zero finite
    double is kept as the text [Number::toString] gives it ([1500],
    [-0.5], [1e+21]). *)
Inductive number : Type :=
| NaN
| Zero (negative : bool)
| Infinity (negative : bool)
| Finite (text : jsstring).

(** The values that JSON and the terminal can hand to the program, plus
    [undefined].  An object lists its own properties in enumeration
    order. *)
Inductive value : Type :=
| VUndefined
| VNull
| VBool (b : bool)
| VNum (n : number)
| VStr (s : jsstring)
| VArr (items : list value)
| VObj (fields : list (jsstring * value)).

Definition num_of_nat (n : nat) : number :=
  match n with
  | O => Zero false
  | S _ => Finite (decimal n)
  end.

(** [Number::toString] *)
Definition num_text (n : number) : jsstring :=
  match n with
  | NaN => u "NaN"
  | Zero _ => u "0"
  | Infinity false => u "Infinity"
  | Infinity true => u "-Infinity"
  | Finite t => t
  end.

(** ToBoolean: what [!x], [x && y] and [if (x)] test. *)
Definition truthy (v : value) : bool :=
  match v with
  | VUndefined | VNull => false
  | VBool b => b
  | VNum NaN | VNum (Zero _) => false
  | VNum _ => true
  | VStr [] => false
  | VStr (_ :: _) => true
  | VArr _ | VObj _ => true
  end.

Definition typeof (v : value) : jsstring :=
  match v with
  | VUndefined => u "undefined"
  | VNull => u "object"
  | VBool _ => u "boolean"
  | VNum _ => u "number"
  | VStr _ => u "string"
  | VArr _ | VObj _ => u "object"
  end.

(** [v === 0] *)
Definition is_zero (v : value) : bool :=
  match v with
  | VNum (Zero _) => true
  | _ => false
  end.

Fixpoint lookup (name : jsstring) (fields : list (jsstring * value))
  : value :=
  match fields with
  | [] => VUndefined
  | (k, x) :: rest => if str_eqb k name then x else lookup name rest
  end.

(** *** Exceptions *)

Inductive error : Type :=
| TypeError (message : jsstring)
| Failure (message : jsstring).   (* raised by a collaborator *)

(** [error.message] *)
Definition message (e : error) : jsstring :=
  match e with
  | TypeError m => m
  | Failure m => m
  end.

Inductive outcome (A : Type) : Type :=
| Return (a : A)
| Throw (e : error).
Arguments Return {A} a.
Arguments Throw {A} e.

(** The messages are worded as V8 words them. *)
Definition cannot_read (v : value) (prop : string) : error :=
  TypeError (u "Cannot read properties of "
             ++ (match v with VNull => u "null" | _ => u "undefined" end)
             ++ u " (reading '" ++ u prop ++ u "')").

Definition not_a_function (callee : string) : error :=
  TypeError (u callee ++ u " is not a function").

(** The receiver of a string method: [expr.method(...)] where [expr]
    evaluates to [v].  Only strings carry the methods used here. *)
Definition string_receiver (expr method : string) (v : value)
  : outcome jsstring :=
  match v with
  | VStr s => Return s
  | VUndefined | VNull => Throw (cannot_read v method)
  | _ => Throw (not_a_function (expr ++ "." ++ method))
  end.

(** [v.text] *)
Definition prop_text (v : value) : outcome value :=
  match v with
  | VUndefined | VNull => Throw (cannot_read v "text")
  | VObj fields => Return (lookup (u "text") fields)
  | _ => Return VUndefined
  end.

(** [v.length] *)
Definition prop_length (v : value) : outcome value :=
  match v with
  | VUndefined | VNull => Throw (cannot_read v "length")
  | VStr s => Return (VNum (num_of_nat (length s)))
  | VArr items => Return (VNum (num_of_nat (length items)))
  | VObj fields => Return (lookup (u "length") fields)
  | _ => Return VUndefined
  end.

(* ================================================================== *)
(** ** JSON.stringify *)

Definition hex_digit (d : N) : N :=
  (if d <? 10 then 48 + d else 87 + d)%N.

(** [\uXXXX], four lower-case hexadecimal digits. *)
Definition unicode_escape (c : N) : jsstring :=
  [92; 117;
   hex_digit ((c / 4096) mod 16); hex_digit ((c / 256) mod 16);
   hex_digit ((c / 16) mod 16); hex_digit (c mod 16)]%N.

Definition is_high_surrogate (c : N) : bool := ((55296 <=? c) && (c <=? 56319))%N.
Definition is_low_surrogate (c : N) : bool := ((56320 <=? c) && (c <=? 57343))%N.

(** One code unit that is not a surrogate, inside a JSON string. *)
Definition quote_unit (c : N) : jsstring :=
  (if c =? 8 then [92; 98]
   else if c =? 9 then [92; 116]
   else if c =? 10 then [92; 110]
   else if c =? 12 then [92; 102]
   else if c =? 13 then [92; 114]
   else if c =? 34 then [92; 34]
   else if c =? 92 then [92; 92]
   else if c <? 32 then unicode_escape c
   else [c])%N.

(** A surrogate pair is copied, a lone surrogate is escaped. *)
Fixpoint quote_units (s : jsstring) : jsstring :=
  match s with
  | [] => []
  | c :: rest =>
      if is_high_surrogate c then
        match rest with
        | d :: rest' =>
            if is_low_surrogate d then c :: d :: quote_units rest'
            else unicode_escape c ++ quote_units rest
        | [] => unicode_escape c
        end
      else if is_low_surrogate c then unicode_escape c ++ quote_units rest
      else quote_unit c ++ quote_units rest
  end.

(** QuoteJSONString *)
Definition quote (s : jsstring) : jsstring :=
  dquote ++ quote_units s ++ dquote.

(** [JSON.stringify(v)], [None] standing for the result [undefined].
    Inside an array [undefined] is written [null]; a property whose
    value is [undefined] is left out. *)
Fixpoint stringify (v : value) : option jsstring :=
  match v with
  | VUndefined => None
  | VNull => Some (u "null")
  | VBool true => Some (u "true")
  | VBool false => Some (u "false")
  | VNum (Finite t) => Some t
  | VNum (Zero _) => Some (u "0")
  | VNum _ => Some (u "null")
  | VStr s => Some (quote s)
  | VArr items =>
      let elements :=
        (fix elements (l : list value) : list jsstring :=
           match l with
           | [] => []
           | x :: l' =>
               match stringify x with
               | Some t => t :: elements l'
               | None => u "null" :: elements l'
               end
           end) items in
      Some (u "[" ++ join (u ",") elements ++ u "]")
  | VObj fields =>
      let members :=
        (fix members (l : list (jsstring * value)) : list jsstring :=
           match l with
           | [] => []
           | (k, x) :: l' =>
               match stringify x with
               | Some t => (quote k ++ u ":" ++ t) :: members l'
               | None => members l'
               end
           end) fields in
      Some (u "{" ++ join (u ",") members ++ u "}")
  end.

(** The result of [JSON.stringify] as a value again. *)
Definition of_text (t : option jsstring) : value :=
  match t with
  | Some s => VStr s
  | None => VUndefined
  end.

(** ToString, as [replace] applies it to its second argument. *)
Fixpoint toString (v : value) : jsstring :=
  match v with
  | VUndefined => u "undefined"
  | VNull => u "null"
  | VBool true => u "true"
  | VBool false => u "false"
  | VNum n => num_text n
  | VStr s => s
  | VArr items =>
      join (u ",")
        ((fix parts (l : list value) : list jsstring :=
            match l with
            | [] => []
            | VUndefined :: l' | VNull :: l' => [] :: parts l'
            | x :: l' => toString x :: parts l'
            end) items)
  | VObj _ => u "[object Object]"
  end.

(* ================================================================== *)
(** ** The outside world, events and the effect monad *)

(** An HTTP request as node-fetch receives it. *)
Record request : Type := {
  req_url : jsstring;
  req_method : jsstring;
  req_headers : list (jsstring * value);
  req_body : value
}.

(** What the program reads from a node-fetch response. *)
Record response : Type := {
  content_type : value;         (* response.headers.get('content-type'), null when absent *)
  json : outcome value;         (* await response.json() *)
  text : outcome jsstring       (* await response.text() *)
}.

(** The collaborators.  Each call of a service settles: it resolves or
    it rejects.  The terminal delivers the lines of [typed], one to each
    question that is read while [process.stdin] is not paused. *)
Record world : Type := {
  JINA_AUTH_TOKEN : value;                           (* process.env.JINA_AUTH_TOKEN *)
  typed : nat -> jsstring;                           (* the n-th line entered at the terminal *)
  import_node_fetch : outcome unit;                  (* await import('node-fetch') *)
  fetch : request -> outcome response;
  body_textContent : jsstring -> outcome jsstring;   (* new JSDOM(t).window.document.body.textContent *)
  axios_post : jsstring -> value -> list (jsstring * value) -> outcome value;
                                                     (* (await axios.post(url, data, config)).data *)
  generateContent : jsstring -> outcome jsstring     (* (await geminiModel.generateContent(p)).response.text() *)
}.

Inductive event : Type :=
| Log (v : value)                                    (* console.log(v) *)
| Question (prompt : jsstring)                       (* rl.question(prompt, ...) *)
| HttpFetch (r : request)
| AxiosPost (url : jsstring) (data : value) (headers : list (jsstring * value))
| GenerateContent (prompt : jsstring).

Record state : Type := {
  trace : list event;     (* oldest first *)
  asked : nat;            (* lines consumed from the terminal *)
  paused : bool           (* process.stdin is paused: nothing reads the terminal *)
}.

Definition M (A : Type) : Type := state -> outcome A * state.

Definition ret {A} (a : A) : M A := fun st => (Return a, st).

Definition bind {A B} (m : M A) (k : A -> M B) : M B :=
  fun st =>
    match m st with
    | (Return a, st') => k a st'
    | (Throw e, st') => (Throw e, st')
    end.

Definition lift {A} (o : outcome A) : M A := fun st => (o, st).

(** [try { body } catch (error) { handler }] *)
Definition tryCatch {A} (body : M A) (handler : error -> M A) : M A :=
  fun st =>
    match body st with
    | (Return a, st') => (Return a, st')
    | (Throw e, st') => handler e st'
    end.

Definition emit (e : event) : M unit :=
  fun st =>
    (Return tt,
     {| trace := trace st ++ [e]; asked := asked st; paused := paused st |}).

Definition obind {A B} (o : outcome A) (k : A -> outcome B) : outcome B :=
  match o with
  | Return a => k a
  | Throw e => Throw e
  end.

Declare Scope js_scope.
Delimit Scope js_scope with js.
Notation "x <- c1 ;; c2" := (bind c1 (fun x => c2))
  (at level 61, c1 at next level, right associativity) : js_scope.
Notation "c1 ;; c2" := (bind c1 (fun _ => c2))
  (at level 61, right associativity) : js_scope.
Notation "'let!' x := c1 'in' c2" := (obind c1 (fun x => c2))
  (at level 61, x name, c1 at next level, right associativity) : js_scope.
Open Scope js_scope.

(** *** Promises that are never settled

    A stage always comes back: it returns or it throws.  [main] may
    also wait for ever, for a line that the terminal no longer
    delivers; the process then ends with [main] still waiting. *)
Inductive completion (A : Type) : Type :=
| Settled (o : outcome A)
| Unsettled.
Arguments Settled {A} o.
Arguments Unsettled {A}.

Coercion Settled : outcome >-> completion.
#[local] Arguments pair {A B} & a b.

Definition P (A : Type) : Type := state -> completion A * state.

(** [await m] for a computation that comes back; a statement of [main]
    that is such a computation is read the same way. *)
Definition await {A} (m : M A) : P A :=
  fun st =>
    match m st with
    | (o, st') => (Settled o, st')
    end.

Coercion await : M >-> P.

Definition bindP {A B} (m : P A) (k : A -> P B) : P B :=
  fun st =>
    match m st with
    | (Settled (Return a), st') => k a st'
    | (Settled (Throw e), st') => (Settled (Throw e), st')
    | (Unsettled, st') => (Unsettled, st')
    end.

Declare Scope main_scope.
Delimit Scope main_scope with main.
Notation "x <- c1 ;; c2" := (bindP c1 (fun x => c2))
  (at level 61, c1 at next level, right associativity) : main_scope.
Notation "c1 ;; c2" := (bindP c1 (fun _ => c2))
  (at level 61, right associativity) : main_scope.

(** [arr.map(f)] for a callback that may throw. *)
Fixpoint map_items {A B} (f : A -> outcome B) (l : list A) : outcome (list B) :=
  match l with
  | [] => Return []
  | x :: l' =>
      let! y := f x in
      let! ys := map_items f l' in
      Return (y :: ys)
  end.

Definition array_map (expr : string) (f : value -> outcome value) (v : value)
  : outcome (list value) :=
  match v with
  | VArr items => map_items f items
  | VUndefined | VNull => Throw (cannot_read v "map")
  | _ => Throw (not_a_function (expr ++ ".map"))
  end.

Section Program.

Variable w : world.

(** [console.log] of a string *)
Definition log (line : jsstring) : M unit := emit (Log (VStr line)).

(** The prompt of a stage, lines 54-59 and 93-98: a readline interface
    of its own, one question, [rl.close()].  Creating the interface
    resumes [process.stdin], so the question is answered by the next
    line; closing it pauses [process.stdin], for every interface that
    reads from it. *)
Definition question (prompt : jsstring) : M jsstring :=
  fun st =>
    (Return (typed w (asked st)),
     {| trace := trace st ++ [Question prompt];
        asked := S (asked st);
        paused := true |}).

(** The interface of [main], line 172:
    [readline.createInterface({ input: process.stdin, ... })] resumes
    [process.stdin]. *)
Definition createInterface : P unit :=
  fun st =>
    (Settled (Return tt),
     {| trace := trace st; asked := asked st; paused := false |}).

(** [await new Promise(resolve => rl.question(prompt, resolve))] on that
    interface: the prompt is written, and the promise is resolved with
    the next line, unless [process.stdin] has been paused in the
    meantime: the interface does not resume it, and no line arrives. *)
Definition rl_question (prompt : jsstring) : P jsstring :=
  fun st =>
    if paused st then
      (Unsettled,
       {| trace := trace st ++ [Question prompt];
          asked := asked st;
          paused := paused st |})
    else
      (Settled (Return (typed w (asked st))),
       {| trace := trace st ++ [Question prompt];
          asked := S (asked st);
          paused := paused st |}).

(** [rl.close()] *)
Definition rl_close : P unit :=
  fun st =>
    (Settled (Return tt),
     {| trace := trace st; asked := asked st; paused := true |}).

Definition do_fetch (r : request) : M response :=
  emit (HttpFetch r) ;; lift (fetch w r).

Definition do_post (url : jsstring) (data : value)
    (headers : list (jsstring * value)) : M value :=
  emit (AxiosPost url data headers) ;; lift (axios_post w url data headers).

Definition do_generate (prompt : jsstring) : M jsstring :=
  emit (GenerateContent prompt) ;; lift (generateContent w prompt).

(* ------------------------------------------------------------------ *)
(** *** The prompt template *)

Definition SYSTEM_PROMPT : jsstring :=
  u "You are a knowledgeable assistant designed to answer user questions accurately and concisely by utilizing retrieved documents." ++ nl
  ++ u "*DOCUMENT:* {document}" ++ nl
  ++ u "---*QUESTION:* {question}" ++ nl
  ++ u "---*INSTRUCTIONS:*" ++ nl
  ++ u "- Answer the user's question using the information from the document above" ++ nl
  ++ u "- Ensure your response is factual, specific, and relevant to the question" ++ nl
  ++ u "- Keep your answer clear and concise, ideally within 2-3 sentences".

Definition authorization : jsstring * value :=
  (u "Authorization", JINA_AUTH_TOKEN w).

Definition content_type_json : jsstring * value :=
  (u "Content-Type", VStr (u "application/json")).

(* ------------------------------------------------------------------ *)
(** *** fetchContent *)

(** [url = null] makes a missing argument [null], which the first test
    treats like every other falsy value. *)
Definition fetchContent (url : value) : M value :=
  url <- (if negb (truthy url)
          then (line <- question (u "Enter the URL to fetch content: ") ;;
                ret (VStr line))
          else ret url) ;;
  s <- lift (string_receiver "url" "startsWith" url) ;;
  if negb (startsWith s (u "http")) then
    log (u "Invalid URL.") ;;
    ret VNull
  else
    tryCatch
      (log (u "Fetching content from: " ++ s) ;;
       lift (import_node_fetch w) ;;
       response <- do_fetch {| req_url := u "https://r.jina.ai/" ++ s;
                               req_method := u "GET";
                               req_headers := [authorization];
                               req_body := VUndefined |} ;;
       let contentType := content_type response in
       ct <- lift (string_receiver "contentType" "includes" contentType) ;;
       data <- (if includes ct (u "application/json") then
                  lift (json response)
                else if includes ct (u "text/html") then
                  t <- lift (text response) ;;
                  b <- lift (body_textContent w t) ;;
                  ret (VStr b)
                else
                  t <- lift (text response) ;;
                  ret (VStr t)) ;;
       log (u "Content fetched successfully.") ;;
       ret data)
      (fun error =>
         log (u "Error fetching content: " ++ message error) ;;
         ret VNull).

(* ------------------------------------------------------------------ *)
(** *** segmentText *)

Definition segmentText (content : value) : M value :=
  content <- (if negb (truthy content)
              then (line <- question (u "Enter the text to segment: ") ;;
                    ret (VStr line))
              else ret content) ;;
  let content :=
    if negb (str_eqb (typeof content) (u "string"))
    then of_text (stringify content)
    else content in
  s <- lift (string_receiver "content" "trim" content) ;;
  if negb (truthy (VStr (trim s))) then
    log (u "No text provided.") ;;
    ret VNull
  else
    let requestData :=
      VObj [(u "content", content);
            (u "return_chunks", VBool true);
            (u "return_tokens", VBool true);
            (u "max_chunk_length", VNum (Finite (u "1500")))] in
    tryCatch
      (log (u "Attempting to segment text...") ;;
       lift (import_node_fetch w) ;;
       response <- do_fetch {| req_url := u "https://segment.jina.ai/";
                               req_method := u "POST";
                               req_headers := [authorization; content_type_json];
                               req_body := of_text (stringify requestData) |} ;;
       data <- lift (json response) ;;
       log (u "Text segmentation successful.") ;;
       ret data)
      (fun error =>
         log (u "Error segmenting text: " ++ message error) ;;
         ret VNull).

(* ------------------------------------------------------------------ *)
(** *** generateEmbeddings *)

(** The callback of [inputs.map], with the serializer of its last branch
    as a parameter [ser]; the program runs it with [JSON.stringify]. *)
Definition normalize_with (ser : value -> option jsstring) (item : value)
  : outcome value :=
  if str_eqb (typeof item) (u "string") then
    let! s := string_receiver "item" "substring" item in
    Return (VStr (substring s 0 1000))
  else
    let! text_bearing :=
      (if str_eqb (typeof item) (u "object")
       then let! t := prop_text item in Return (truthy t)
       else Return false) in
    if text_bearing then
      let! t := prop_text item in
      let! s := string_receiver "item.text" "substring" t in
      Return (VStr (substring s 0 1000))
    else
      let! s := string_receiver "JSON.stringify(...)" "substring"
                  (of_text (ser item)) in
      Return (VStr (substring s 0 1000)).

Definition normalize (item : value) : outcome value :=
  normalize_with stringify item.

(** The request body for the normalized inputs. *)
Definition embedding_request (stringInputs : list value) : value :=
  VObj [(u "model", VStr (u "jina-clip-v2"));
        (u "normalized", VBool true);
        (u "embedding_type", VStr (u "float"));
        (u "input", VArr (map (fun text => VObj [(u "text", text)]) stringInputs))].

Definition embeddings_url : jsstring := u "https://api.jina.ai/v1/embeddings".

(** [inputs = []] replaces a missing argument by the empty array. *)
Definition generateEmbeddings (inputs : value) : M value :=
  let inputs := match inputs with VUndefined => VArr [] | _ => inputs end in
  nothing <- (if negb (truthy inputs) then ret true
              else (len <- lift (prop_length inputs) ;; ret (is_zero len))) ;;
  if (nothing : bool) then
    log (u "No inputs provided for embedding generation.") ;;
    ret VNull
  else
    stringInputs <- lift (array_map "inputs" normalize inputs) ;;
    let data := embedding_request stringInputs in
    tryCatch
      (log (u "Attempting to generate embeddings...") ;;
       do_post embeddings_url data [authorization; content_type_json])
      (fun error =>
         log (u "Error generating embeddings: " ++ message error) ;;
         ret VNull).

(* ------------------------------------------------------------------ *)
(** *** generateGeminiResponse *)

Definition formattedPrompt (document question : value) : jsstring :=
  replace
    (replace SYSTEM_PROMPT (u "{document}")
       (toString (of_text (stringify document))))
    (u "{question}") (toString question).

Definition generateGeminiResponse (document question : value) : M value :=
  tryCatch
    (t <- do_generate (formattedPrompt document question) ;;
     ret (VStr t))
    (fun error =>
       log (u "Error generating Gemini response: " ++ message error) ;;
       ret VNull).

(* ------------------------------------------------------------------ *)
(** *** main *)

Definition main : P value :=
  (createInterface ;;
   log (nl ++ u "--- Step 1: Fetching Content ---") ;;
   url <- rl_question (u "Enter the URL to fetch content: ") ;;
   fetchedContent <- await (fetchContent (VStr url)) ;;
   if negb (truthy fetchedContent) then
     log (u "Content fetching failed. Exiting.") ;;
     rl_close ;;
     ret VUndefined
   else
     log (nl ++ u "--- Step 2: Segmenting Text ---") ;;
     segmentedContent <- await (segmentText fetchedContent) ;;
     if negb (truthy segmentedContent) then
       log (u "Text segmentation failed. Exiting.") ;;
       rl_close ;;
       ret VUndefined
     else
       log (nl ++ u "--- Step 3: Generating Embeddings ---") ;;
       let embeddingInputs := VArr [segmentedContent] in
       embeddings <- await (generateEmbeddings embeddingInputs) ;;
       log (nl ++ u "--- Step 4: Generating AI Response ---") ;;
       userQuestion <- rl_question (u "Ask a question about the fetched content: ") ;;
       geminiResponse <- await (generateGeminiResponse segmentedContent (VStr userQuestion)) ;;
       (if truthy geminiResponse then
          log (nl ++ u "--- Gemini's Response ---") ;;
          emit (Log geminiResponse) ;;
          log (nl ++ u "Workflow completed successfully!")
        else
          log (nl ++ u "Workflow encountered an error during AI response generation.")) ;;
       rl_close ;;
       ret VUndefined)%main.

End Program.

Arguments u : simpl never.

(* ================================================================== *)
(** ** Observing a run *)

(** The requests that leave the process. *)
Definition is_network_call (e : event) : bool :=
  match e with
  | HttpFetch _ | AxiosPost _ _ _ | GenerateContent _ => true
  | Log _ | Question _ => false
  end.

Definition network_calls (t : list event) : list event :=
  filter is_network_call t.

(** The state after one more [console.log] of a string. *)
Definition said (line : jsstring) (st : state) : state :=
  {| trace := trace st ++ [Log (VStr line)];
     asked := asked st;
     paused := paused st |}.

(** The state after the prompt of a stage: one line read, and the
    interface of the stage closed again, which leaves [process.stdin]
    paused. *)
Definition prompted (prompt : jsstring) (st : state) : state :=
  {| trace := trace st ++ [Question prompt];
     asked := S (asked st);
     paused := true |}.

(** The interface of [main]: opened, one of its questions answered, one
    of its questions left without an answer, closed. *)
Definition opened (st : state) : state :=
  {| trace := trace st; asked := asked st; paused := false |}.

Definition answered (prompt : jsstring) (st : state) : state :=
  {| trace := trace st ++ [Question prompt];
     asked := S (asked st);
     paused := paused st |}.

Definition waiting (prompt : jsstring) (st : state) : state :=
  {| trace := trace st ++ [Question prompt];
     asked := asked st;
     paused := paused st |}.

Definition closed (st : state) : state :=
  {| trace := trace st; asked := asked st; paused := true |}.

(** The state after an [axios.post]. *)
Definition posted (url : jsstring) (data : value)
    (headers : list (jsstring * value)) (st : state) : state :=
  {| trace := trace st ++ [AxiosPost url data headers];
     asked := asked st;
     paused := paused st |}.

(** The state after a call of the generative model. *)
Definition submitted (prompt : jsstring) (st : state) : state :=
  {| trace := trace st ++ [GenerateContent prompt];
     asked := asked st;
     paused := paused st |}.

(** The state after [console.log(v)]. *)
Definition shown (v : value) (st : state) : state :=
  {| trace := trace st ++ [Log v]; asked := asked st; paused := paused st |}.

(** The states in which [main] calls its four stages: after the banner
    of the step and, for steps 1 and 4, after the answer to its
    question.  Step 1 follows the opening of the interface. *)
Definition at_stage1 (st : state) : state :=
  answered (u "Enter the URL to fetch content: ")
    (said (nl ++ u "--- Step 1: Fetching Content ---") (opened st)).

Definition at_stage2 (st : state) : state :=
  said (nl ++ u "--- Step 2: Segmenting Text ---") st.

Definition at_stage3 (st : state) : state :=
  said (nl ++ u "--- Step 3: Generating Embeddings ---") st.

Definition at_stage4 (st : state) : state :=
  answered (u "Ask a question about the fetched content: ")
    (said (nl ++ u "--- Step 4: Generating AI Response ---") st).

(** What takes the place of [{document}] in the template. *)
Definition document_slot (document : value) : jsstring :=
  toString (of_text (stringify document)).

Definition raises {A} (o : outcome A) : bool :=
  match o with
  | Return _ => false
  | Throw _ => true
  end.

(** The text a stage examines when its argument may be replaced by a
    line from the terminal: the argument itself unless it is empty. *)
Definition examined (w : world) (st : state) (arg : jsstring) : jsstring :=
  match arg with
  | [] => typed w (asked st)
  | _ :: _ => arg
  end.

(** The fixed lines of the template around the document slot. *)
Definition prompt_head : jsstring :=
  u "You are a knowledgeable assistant designed to answer user questions accurately and concisely by utilizing retrieved documents." ++ nl
  ++ u "*DOCUMENT:* ".

Definition prompt_middle : jsstring :=
  nl ++ u "---*QUESTION:* ".

(** *** A concrete world for the examples

    Every service is up; the user types the same line at every prompt. *)
Definition segments : value :=
  VObj [(u "num_chunks", VNum (Finite (u "1")));
        (u "chunks", VArr [VStr (u "Hello world")])].

Definition online : world := {|
  JINA_AUTH_TOKEN := VStr (u "Bearer jina_token");
  typed := fun _ => u "https://example.com";
  import_node_fetch := Return tt;
  fetch := fun _ =>
    Return {| content_type := VStr (u "application/json");
              json := Return segments;
              text := Return (u "Hello world") |};
  body_textContent := fun t => Return t;
  axios_post := fun _ _ _ => Return (VObj [(u "data", VArr [])]);
  generateContent := fun _ => Return (u "It says hello.")
|}.

(** The same world with the segmentation service unreachable: the POST
    is rejected. *)
Definition segmenter_down : world := {|
  JINA_AUTH_TOKEN := JINA_AUTH_TOKEN online;
  typed := typed online;
  import_node_fetch := Return tt;
  fetch := fun r =>
    if str_eqb (req_method r) (u "GET") then fetch online r
    else Throw (Failure (u "request to https://segment.jina.ai/ failed"));
  body_textContent := body_textContent online;
  axios_post := axios_post online;
  generateContent := generateContent online
|}.

(** The same world with the embedding service failing. *)
Definition embedder_down : world := {|
  JINA_AUTH_TOKEN := JINA_AUTH_TOKEN online;
  typed := typed online;
  import_node_fetch := Return tt;
  fetch := fetch online;
  body_textContent := body_textContent online;
  axios_post := fun _ _ _ =>
    Throw (Failure (u "Request failed with status code 500"));
  generateContent := generateContent online
|}.

(** Before anything has run: nothing logged, nothing read, and nothing
    reading the terminal yet. *)
Definition start : state := {| trace := []; asked := 0; paused := true |}.

(* ================================================================== *)
(** ** The stages once their argument is known *)

(** The state after a call of node-fetch. *)
Definition fetched (r : request) (st : state) : state :=
  {| trace := trace st ++ [HttpFetch r]; asked := asked st; paused := paused st |}.

(** The request [fetchContent] sends for [url]. *)
Definition reader_request (w : world) (url : jsstring) : request :=
  {| req_url := u "https://r.jina.ai/" ++ url;
     req_method := u "GET";
     req_headers := [(u "Authorization", JINA_AUTH_TOKEN w)];
     req_body := VUndefined |}.

(** What [fetchContent] makes of a response: the branch on the declared
    content type, as a function of the response. *)
Definition decode (w : world) (r : response) : outcome value :=
  let! ct := string_receiver "contentType" "includes" (content_type r) in
  if includes ct (u "application/json") then json r
  else if includes ct (u "text/html") then
    let! t := text r in
    let! b := body_textContent w t in
    Return (VStr b)
  else
    let! t := text r in
    Return (VStr t).

(** The run of [fetchContent] from the test of the URL on, for the URL
    [url] that is tested. *)
Definition fetch_outcome (w : world) (url : jsstring) (st : state)
  : outcome value * state :=
  if startsWith url (u "http") then
    let st1 := said (u "Fetching content from: " ++ url) st in
    match import_node_fetch w with
    | Throw e =>
        (Return VNull, said (u "Error fetching content: " ++ message e) st1)
    | Return _ =>
        let st2 := fetched (reader_request w url) st1 in
        match (let! r := fetch w (reader_request w url) in decode w r) with
        | Return data => (Return data, said (u "Content fetched successfully.") st2)
        | Throw e =>
            (Return VNull, said (u "Error fetching content: " ++ message e) st2)
        end
    end
  else (Return VNull, said (u "Invalid URL.") st).

(** The request [segmentText] sends for [text]. *)
Definition segment_request (w : world) (text : jsstring) : request :=
  {| req_url := u "https://segment.jina.ai/";
     req_method := u "POST";
     req_headers := [(u "Authorization", JINA_AUTH_TOKEN w);
                     (u "Content-Type", VStr (u "application/json"))];
     req_body :=
       of_text (stringify
                  (VObj [(u "content", VStr text);
                         (u "return_chunks", VBool true);
                         (u "return_tokens", VBool true);
                         (u "max_chunk_length", VNum (Finite (u "1500")))])) |}.

(** The run of [segmentText] from the test of the text on, for the text
    [text] that is tested. *)
Definition segment_outcome (w : world) (text : jsstring) (st : state)
  : outcome value * state :=
  if truthy (VStr (trim text)) then
    let st1 := said (u "Attempting to segment text...") st in
    match import_node_fetch w with
    | Throw e =>
        (Return VNull, said (u "Error segmenting text: " ++ message e) st1)
    | Return _ =>
        let st2 := fetched (segment_request w text) st1 in
        match (let! r := fetch w (segment_request w text) in json r) with
        | Return data => (Return data, said (u "Text segmentation successful.") st2)
        | Throw e =>
            (Return VNull, said (u "Error segmenting text: " ++ message e) st2)
        end
    end
  else (Return VNull, said (u "No text provided.") st).

(** The text [segmentText] tests: the line from the terminal for a falsy
    content, the content itself when it is a string, its JSON text
    otherwise. *)
Definition segmented_text (w : world) (st : state) (content : value)
  : jsstring :=
  if truthy content then
    match content with
    | VStr s => s
    | _ => toString (of_text (stringify content))
    end
  else typed w (asked st).

(** The state in which that text is tested. *)
Definition after_prompt (prompt : jsstring) (st : state) (v : value) : state :=
  if truthy v then st else prompted prompt st.

(** *** The services a run contacts *)

Inductive service : Type :=
| Reader          (* https://r.jina.ai/ *)
| Segmenter       (* https://segment.jina.ai/ *)
| Embedder        (* https://api.jina.ai/v1/embeddings *)
| Model           (* the generative model *)
| Elsewhere.

Definition service_of (e : event) : list service :=
  match e with
  | HttpFetch r =>
      if startsWith (req_url r) (u "https://r.jina.ai/") then [Reader]
      else if str_eqb (req_url r) (u "https://segment.jina.ai/") then [Segmenter]
      else [Elsewhere]
  | AxiosPost url _ _ =>
      if str_eqb url (u "https://api.jina.ai/v1/embeddings") then [Embedder]
      else [Elsewhere]
  | GenerateContent _ => [Model]
  | Log _ | Question _ => []
  end.

Definition services (t : list event) : list service :=
  flat_map service_of t.

(** A world whose segmentation service answers with an object that has
    a numeric [text]. *)
Definition numeric_text : world := {|
  JINA_AUTH_TOKEN := JINA_AUTH_TOKEN online;
  typed := typed online;
  import_node_fetch := Return tt;
  fetch := fun r =>
    if str_eqb (req_method r) (u "GET") then fetch online r
    else Return {| content_type := VStr (u "application/json");
                   json := Return (VObj [(u "text", VNum (Finite (u "5")))]);
                   text := Return (u "{}") |};
  body_textContent := body_textContent online;
  axios_post := axios_post online;
  generateContent := generateContent online
|}.

(** The world [online] with the reader answering [r] to every request,
    and a DOM parser that finds [Hello world] in every page. *)
Definition serving (r : response) : world := {|
  JINA_AUTH_TOKEN := JINA_AUTH_TOKEN online;
  typed := typed online;
  import_node_fetch := Return tt;
  fetch := fun _ => Return r;
  body_textContent := fun _ => Return (u "Hello world");
  axios_post := axios_post online;
  generateContent := generateContent online
|}.

Definition html_page : response :=
  {| content_type := VStr (u "text/html; charset=utf-8");
     json := Throw (Failure (u "Unexpected token < in JSON at position 0"));
     text := Return (u "<html><body><p>Hello world</p></body></html>") |}.

Definition plain_page : response :=
  {| content_type := VStr (u "text/plain");
     json := Throw (Failure (u "Unexpected token H in JSON at position 0"));
     text := Return (u "Hello world") |}.

Definition untyped_page : response :=
  {| content_type := VNull;
     json := Throw (Failure (u "Unexpected token H in JSON at position 0"));
     text := Return (u "Hello world") |}.

(** The fixed lines of the template after the question slot. *)
Definition prompt_tail : jsstring :=
  nl ++ u "---*INSTRUCTIONS:*" ++ nl
  ++ u "- Answer the user's question using the information from the document above" ++ nl
  ++ u "- Ensure your response is factual, specific, and relevant to the question" ++ nl
  ++ u "- Keep your answer clear and concise, ideally within 2-3 sentences".

(** No [$] in a replacement text: nothing for [replace] to expand. *)
Definition plain (t : jsstring) : bool :=
  forallb (fun c => negb (c =? dollar)%N) t.

(** A page whose body is empty. *)
Definition empty_page : response :=
  {| content_type := VStr (u "text/plain");
     json := Throw (Failure (u "Unexpected end of JSON input"));
     text := Return [] |}.

(** The world [online] with a user who only presses Enter. *)
Definition silent : world := {|
  JINA_AUTH_TOKEN := JINA_AUTH_TOKEN online;
  typed := fun _ => [];
  import_node_fetch := Return tt;
  fetch := fetch online;
  body_textContent := body_textContent online;
  axios_post := axios_post online;
  generateContent := generateContent online
|}.

(** The world [online] with a model that answers with the empty text. *)
Definition mute_model : world := {|
  JINA_AUTH_TOKEN := JINA_AUTH_TOKEN online;
  typed := typed online;
  import_node_fetch := Return tt;
  fetch := fetch online;
  body_textContent := body_textContent online;
  axios_post := axios_post online;
  generateContent := fun _ => Return []
|}.

(** The world [online] with a segmenter that answers the JSON text
    [false]. *)
Definition refusing_segmenter : world := {|
  JINA_AUTH_TOKEN := JINA_AUTH_TOKEN online;
  typed := typed online;
  import_node_fetch := Return tt;
  fetch := fun r =>
    if str_eqb (req_method r) (u "GET") then fetch online r
    else Return {| content_type := VStr (u "application/json");
                   json := Return (VBool false);
                   text := Return (u "false") |};
  body_textContent := body_textContent online;
  axios_post := axios_post online;
  generateContent := generateContent online
|}.

(** The world [embedder_down] with a model that answers with the empty
    text. *)
Definition laconic : world := {|
  JINA_AUTH_TOKEN := JINA_AUTH_TOKEN online;
  typed := typed online;
  import_node_fetch := Return tt;
  fetch := fetch online;
  body_textContent := body_textContent online;
  axios_post := axios_post embedder_down;
  generateContent := fun _ => Return []
|}.

(** The world [online] with a user who first presses Enter and then
    types the URL. *)
Definition hesitant : world := {|
  JINA_AUTH_TOKEN := JINA_AUTH_TOKEN online;
  typed := fun n => match n with O => [] | S _ => u "https://example.com" end;
  import_node_fetch := Return tt;
  fetch := fetch online;
  body_textContent := body_textContent online;
  axios_post := axios_post online;
  generateContent := generateContent online
|}.

(* ================================================================== *)
(** ** Strings: truncation *)

Lemma firstn_min_length (A : Type) (n : nat) (l : list A) :
  firstn (Nat.min n (length l)) l = firstn n l.
Proof.
  destruct (Nat.le_ge_cases n (length l)) as [Hle | Hge].
  - now rewrite Nat.min_l.
  - rewrite Nat.min_r by assumption.
    now rewrite firstn_all, firstn_all2.
Qed.

(** [s.substring(0, n)] keeps the first [n] code units. *)
Lemma substring_from_zero (s : jsstring) (n : nat) :
  substring s 0 n = firstn n s.
Proof.
  unfold substring.
  rewrite Nat.min_0_l, Nat.min_0_l, Nat.max_0_l, Nat.sub_0_r.
  apply firstn_min_length.
Qed.

Lemma substring_idempotent (s : jsstring) (n : nat) :
  substring (substring s 0 n) 0 n = substring s 0 n.
Proof.
  rewrite !substring_from_zero, firstn_firstn.
  now rewrite Nat.min_id.
Qed.

Lemma normalize_with_string (ser : value -> option jsstring) (s : jsstring) :
  normalize_with ser (VStr s) = Return (VStr (firstn 1000 s)).
Proof.
  rewrite <- substring_from_zero.
  reflexivity.
Qed.

(** C7.  A string input of more than 1000 code units is normalized to
    exactly its first 1000 code units, and truncating the result once
    more (by [substring(0, 1000)], or by normalizing it again) changes
    nothing. *)
Theorem normalize_truncates_long_string (s : jsstring) :
  1000 < length s ->
  normalize (VStr s) = Return (VStr (firstn 1000 s))
  /\ length (firstn 1000 s) = 1000
  /\ substring (firstn 1000 s) 0 1000 = firstn 1000 s
  /\ normalize (VStr (firstn 1000 s)) = Return (VStr (firstn 1000 s)).
Proof.
  intros Hlong.
  assert (Hid : firstn 1000 (firstn 1000 s) = firstn 1000 s)
    by (rewrite firstn_firstn; now rewrite Nat.min_id).
  repeat split.
  - apply normalize_with_string.
  - rewrite length_firstn. apply Nat.min_l. lia.
  - now rewrite substring_from_zero.
  - unfold normalize. now rewrite normalize_with_string, Hid.
Qed.

Lemma normalize_truncates_long_string_witness :
  let s := repeat 97%N 1001 in
  normalize (VStr s) = Return (VStr (firstn 1000 s))
  /\ length (firstn 1000 s) = 1000
  /\ substring (firstn 1000 s) 0 1000 = firstn 1000 s
  /\ normalize (VStr (firstn 1000 s)) = Return (VStr (firstn 1000 s)).
Proof.
  intro s. apply (normalize_truncates_long_string s).
  unfold s. rewrite repeat_length. lia.
Defined.

(* ================================================================== *)
(** ** Running the monad *)

Lemma bind_return (A B : Type) (m : M A) (k : A -> M B) st a st' :
  m st = (Return a, st') -> bind m k st = k a st'.
Proof. intros H. unfold bind. now rewrite H. Qed.

Lemma bind_throw (A B : Type) (m : M A) (k : A -> M B) st e st' :
  m st = (Throw e, st') -> bind m k st = (Throw e, st').
Proof. intros H. unfold bind. now rewrite H. Qed.

Lemma log_run (line : jsstring) st :
  log line st = (Return tt, said line st).
Proof. reflexivity. Qed.

Lemma question_run (w : world) (prompt : jsstring) st :
  question w prompt st = (Return (typed w (asked st)), prompted prompt st).
Proof. reflexivity. Qed.

Lemma network_calls_app (t1 t2 : list event) :
  network_calls (t1 ++ t2) = network_calls t1 ++ network_calls t2.
Proof. apply filter_app. Qed.

Lemma network_calls_said (line : jsstring) st :
  network_calls (trace (said line st)) = network_calls (trace st).
Proof. cbn. rewrite network_calls_app. cbn. apply app_nil_r. Qed.

Lemma network_calls_prompted (prompt : jsstring) st :
  network_calls (trace (prompted prompt st)) = network_calls (trace st).
Proof. cbn. rewrite network_calls_app. cbn. apply app_nil_r. Qed.

(* ================================================================== *)
(** ** Input validation of the stages *)

(** C6.  An empty array, a missing argument ([undefined], which the
    default parameter turns into the empty array) and [null] all make
    [generateEmbeddings] log its diagnostic and return [null]; the trace
    grows by that one line, so no request is sent. *)
Theorem generateEmbeddings_without_inputs (w : world) (inputs : value) st :
  inputs = VArr [] \/ inputs = VUndefined \/ inputs = VNull ->
  generateEmbeddings w inputs st
  = (Return VNull, said (u "No inputs provided for embedding generation.") st)
  /\ network_calls
       (trace (said (u "No inputs provided for embedding generation.") st))
     = network_calls (trace st).
Proof.
  intros H. split; [ | apply network_calls_said ].
  destruct H as [-> | [-> | ->]]; reflexivity.
Qed.

Lemma generateEmbeddings_without_inputs_witness :
  generateEmbeddings online (VArr []) start
  = (Return VNull, said (u "No inputs provided for embedding generation.") start)
  /\ network_calls
       (trace (said (u "No inputs provided for embedding generation.") start))
     = network_calls (trace start).
Proof.
  apply (generateEmbeddings_without_inputs online (inputs := VArr []) start).
  left. reflexivity.
Defined.

(** The first test of [fetchContent]: a URL that does not start with
    [http] is refused before anything is sent. *)
Lemma fetchContent_refuses (w : world) (url : jsstring) st :
  url <> [] ->
  startsWith url (u "http") = false ->
  fetchContent w (VStr url) st = (Return VNull, said (u "Invalid URL.") st).
Proof.
  intros Hne Hbad.
  destruct url as [ | c url' ]; [ congruence | ].
  unfold fetchContent.
  change (negb (truthy (VStr (c :: url')))) with false. cbv iota.
  unfold bind at 1. unfold ret at 1.
  unfold bind at 1. unfold lift at 1. unfold string_receiver.
  rewrite Hbad. reflexivity.
Qed.

Lemma fetchContent_asks_when_empty (w : world) st :
  startsWith (typed w (asked st)) (u "http") = false ->
  fetchContent w (VStr []) st
  = (Return VNull,
     said (u "Invalid URL.") (prompted (u "Enter the URL to fetch content: ") st)).
Proof.
  intros Hbad.
  unfold fetchContent.
  change (negb (truthy (VStr []))) with true. cbv iota.
  unfold bind at 1. unfold bind at 1. rewrite question_run.
  unfold ret at 1.
  unfold bind at 1. unfold lift at 1. unfold string_receiver.
  rewrite Hbad. reflexivity.
Qed.

(** C5, as the code has it.  The URL that is tested is the argument, or,
    when the argument is empty, the line entered at the prompt; if it
    does not start with [http], [fetchContent] logs [Invalid URL.],
    returns [null] and sends no request. *)
Theorem fetchContent_invalid_url (w : world) (url : jsstring) st :
  startsWith (examined w st url) (u "http") = false ->
  let st1 := match url with
             | [] => prompted (u "Enter the URL to fetch content: ") st
             | _ :: _ => st
             end in
  fetchContent w (VStr url) st = (Return VNull, said (u "Invalid URL.") st1)
  /\ network_calls (trace (said (u "Invalid URL.") st1))
     = network_calls (trace st).
Proof.
  intros Hbad st1. subst st1.
  destruct url as [ | c url' ]; cbn [examined] in Hbad.
  - split.
    + now apply fetchContent_asks_when_empty.
    + now rewrite network_calls_said, network_calls_prompted.
  - split.
    + apply fetchContent_refuses; [ discriminate | assumption ].
    + apply network_calls_said.
Qed.

Lemma fetchContent_invalid_url_witness :
  fetchContent online (VStr (u "ftp://example.com")) start
  = (Return VNull, said (u "Invalid URL.") start)
  /\ network_calls (trace (said (u "Invalid URL.") start))
     = network_calls (trace start).
Proof.
  apply (fetchContent_invalid_url online (u "ftp://example.com") start).
  reflexivity.
Defined.

(** C5 as stated fails at the empty URL: it does not start with [http],
    yet [fetchContent] asks for a URL at the terminal and fetches the one
    that is entered. *)
Lemma fetchContent_empty_url_is_fetched :
  startsWith [] (u "http") = false
  /\ fst (fetchContent online (VStr []) start) = Return segments
  /\ network_calls (trace (snd (fetchContent online (VStr []) start)))
     = [HttpFetch {| req_url := u "https://r.jina.ai/https://example.com";
                     req_method := u "GET";
                     req_headers := [(u "Authorization", VStr (u "Bearer jina_token"))];
                     req_body := VUndefined |}].
Proof. repeat split. Qed.

(** *** segmentText *)

Lemma trimStart_blank (s : jsstring) :
  forallb is_space s = true -> trimStart s = [].
Proof.
  induction s as [ | c s IH ]; cbn; [ reflexivity | ].
  intros H. apply andb_prop in H as [Hc Hs].
  rewrite Hc. now apply IH.
Qed.

(** [trim] leaves nothing of an empty or whitespace-only string. *)
Lemma trim_blank (s : jsstring) :
  forallb is_space s = true -> trim s = [].
Proof.
  intros H. unfold trim. now rewrite (trimStart_blank s H).
Qed.

Lemma segmentText_refuses (w : world) (text : jsstring) st :
  text <> [] ->
  trim text = [] ->
  segmentText w (VStr text) st = (Return VNull, said (u "No text provided.") st).
Proof.
  intros Hne Hblank.
  destruct text as [ | c text' ]; [ congruence | ].
  unfold segmentText.
  change (negb (truthy (VStr (c :: text')))) with false. cbv iota.
  unfold bind at 1. unfold ret at 1.
  change (negb (str_eqb (typeof (VStr (c :: text'))) (u "string"))) with false.
  cbv iota.
  unfold bind at 1. unfold lift at 1. unfold string_receiver.
  rewrite Hblank. reflexivity.
Qed.

Lemma segmentText_asks_when_empty (w : world) st :
  trim (typed w (asked st)) = [] ->
  segmentText w (VStr []) st
  = (Return VNull,
     said (u "No text provided.") (prompted (u "Enter the text to segment: ") st)).
Proof.
  intros Hblank.
  unfold segmentText.
  change (negb (truthy (VStr []))) with true. cbv iota.
  unfold bind at 1. unfold bind at 1. rewrite question_run.
  unfold ret at 1.
  change (negb (str_eqb (typeof (VStr (typed w (asked st)))) (u "string")))
    with false.
  cbv iota.
  unfold bind at 1. unfold lift at 1. unfold string_receiver.
  rewrite Hblank. reflexivity.
Qed.

(** C4, as the code has it.  The text that is examined is the argument,
    or, when the argument is empty, the line entered at the prompt; if
    it is empty or whitespace-only, [segmentText] logs [No text
    provided.], returns [null] and sends no request. *)
Theorem segmentText_blank_text (w : world) (text : jsstring) st :
  forallb is_space (examined w st text) = true ->
  let st1 := match text with
             | [] => prompted (u "Enter the text to segment: ") st
             | _ :: _ => st
             end in
  segmentText w (VStr text) st = (Return VNull, said (u "No text provided.") st1)
  /\ network_calls (trace (said (u "No text provided.") st1))
     = network_calls (trace st).
Proof.
  intros Hblank st1. subst st1.
  apply trim_blank in Hblank.
  destruct text as [ | c text' ]; cbn [examined] in Hblank.
  - split.
    + now apply segmentText_asks_when_empty.
    + now rewrite network_calls_said, network_calls_prompted.
  - split.
    + apply segmentText_refuses; [ discriminate | assumption ].
    + apply network_calls_said.
Qed.

Lemma segmentText_blank_text_witness :
  segmentText online (VStr (u "  ")) start
  = (Return VNull, said (u "No text provided.") start)
  /\ network_calls (trace (said (u "No text provided.") start))
     = network_calls (trace start).
Proof.
  apply (segmentText_blank_text online (u "  ") start).
  reflexivity.
Defined.

(** C4 as stated fails at the empty text: [segmentText] asks for a text
    at the terminal and posts the line that is entered. *)
Lemma segmentText_empty_text_is_posted :
  forallb is_space [] = true
  /\ fst (segmentText online (VStr []) start) = Return segments
  /\ network_calls (trace (snd (segmentText online (VStr []) start)))
     = [HttpFetch
          {| req_url := u "https://segment.jina.ai/";
             req_method := u "POST";
             req_headers := [(u "Authorization", VStr (u "Bearer jina_token"));
                             (u "Content-Type", VStr (u "application/json"))];
             req_body :=
               VStr (u "{" ++ dquote ++ u "content" ++ dquote ++ u ":"
                     ++ dquote ++ u "https://example.com" ++ dquote
                     ++ u "," ++ dquote ++ u "return_chunks" ++ dquote ++ u ":true,"
                     ++ dquote ++ u "return_tokens" ++ dquote ++ u ":true,"
                     ++ dquote ++ u "max_chunk_length" ++ dquote ++ u ":1500}") |}].
Proof. repeat split. Qed.

(* ================================================================== *)
(** ** Normalization of the embedding inputs *)

Lemma normalize_with_text_field (ser : value -> option jsstring)
    (fields : list (jsstring * value)) (t : jsstring) :
  lookup (u "text") fields = VStr t ->
  t <> [] ->
  normalize_with ser (VObj fields) = Return (VStr (firstn 1000 t)).
Proof.
  intros Hfield Hne.
  destruct t as [ | c t' ]; [ congruence | ].
  rewrite <- substring_from_zero.
  unfold normalize_with.
  change (str_eqb (typeof (VObj fields)) (u "string")) with false.
  change (str_eqb (typeof (VObj fields)) (u "object")) with true.
  cbv iota. unfold prop_text. rewrite Hfield. reflexivity.
Qed.

(** An object whose [text] is falsy (absent, empty, [null], [0],
    [false]) takes the last branch: its normal form is made of whatever
    the serializer returns. *)
Lemma normalize_with_falsy_text (ser : value -> option jsstring)
    (fields : list (jsstring * value)) :
  truthy (lookup (u "text") fields) = false ->
  normalize_with ser (VObj fields)
  = (let! s := string_receiver "JSON.stringify(...)" "substring"
                 (of_text (ser (VObj fields))) in
     Return (VStr (substring s 0 1000))).
Proof.
  intros Hfalsy.
  unfold normalize_with.
  change (str_eqb (typeof (VObj fields)) (u "string")) with false.
  change (str_eqb (typeof (VObj fields)) (u "object")) with true.
  cbv iota. unfold prop_text. unfold obind at 1. unfold obind at 1.
  rewrite Hfalsy. reflexivity.
Qed.

(** C8, as the code has it.  The callback tests for a string first, then
    for an object whose [text] is truthy, and serializes only what is
    left.  For every object whose [text] field is a non-empty string the
    normal form is the first 1000 code units of that field, whatever
    serializer stands in the last branch: the object does not reach
    [JSON.stringify]. *)
Theorem normalize_text_bearing_object
    (fields : list (jsstring * value)) (t : jsstring) :
  lookup (u "text") fields = VStr t ->
  t <> [] ->
  normalize (VObj fields) = Return (VStr (firstn 1000 t))
  /\ forall ser : value -> option jsstring,
       normalize_with ser (VObj fields) = normalize (VObj fields).
Proof.
  intros Hfield Hne. split.
  - now apply normalize_with_text_field.
  - intros ser. unfold normalize.
    now rewrite !(normalize_with_text_field _ fields Hfield Hne).
Qed.

Lemma normalize_text_bearing_object_witness :
  let fields := [(u "text", VStr (u "Hello world")); (u "tokens", VNum (Finite (u "2")))] in
  normalize (VObj fields) = Return (VStr (firstn 1000 (u "Hello world")))
  /\ forall ser : value -> option jsstring,
       normalize_with ser (VObj fields) = normalize (VObj fields).
Proof.
  intro fields.
  apply (@normalize_text_bearing_object fields (u "Hello world")).
  - reflexivity.
  - discriminate.
Defined.

(** C8 as stated fails at an object whose [text] field is the empty
    string: the field is there and its truncation is empty, but the
    normal form is the JSON text of the whole object, and it changes
    with the serializer. *)
Lemma normalize_empty_text_is_serialized :
  let item := VObj [(u "text", VStr [])] in
  lookup (u "text") [(u "text", VStr [])] = VStr []
  /\ normalize item
     = Return (VStr (u "{" ++ dquote ++ u "text" ++ dquote ++ u ":"
                     ++ dquote ++ dquote ++ u "}"))
  /\ normalize item <> Return (VStr (substring [] 0 1000))
  /\ normalize_with (fun _ => Some (u "serialized")) item
     = Return (VStr (u "serialized")).
Proof.
  intro item. repeat split. discriminate.
Qed.

Lemma stringify_total (v : value) :
  v <> VUndefined -> exists t, stringify v = Some t.
Proof.
  intros Hv.
  destruct v as [ | | [ | ] | [ | | | ] | | | ];
    try congruence; eexists; reflexivity.
Qed.

(** The elements without a normal form: [null], [undefined], and an
    object whose [text] is truthy and not a string. *)
Lemma normalize_raises_iff (item : value) :
  raises (normalize item) = true
  <-> item = VNull \/ item = VUndefined
      \/ exists fields,
           item = VObj fields
           /\ truthy (lookup (u "text") fields) = true
           /\ forall s, lookup (u "text") fields <> VStr s.
Proof.
  split.
  - intros Hraises.
    destruct item as [ | | b | n | s | items | fields ].
    + right. left. reflexivity.
    + left. reflexivity.
    + destruct (@stringify_total (VBool b)) as [ t Ht ]; [ discriminate | ].
      unfold normalize, normalize_with in Hraises.
      change (str_eqb (typeof (VBool b)) (u "string")) with false in Hraises.
      change (str_eqb (typeof (VBool b)) (u "object")) with false in Hraises.
      cbv beta iota delta [obind] in Hraises.
      rewrite Ht in Hraises. discriminate.
    + destruct (@stringify_total (VNum n)) as [ t Ht ]; [ discriminate | ].
      unfold normalize, normalize_with in Hraises.
      change (str_eqb (typeof (VNum n)) (u "string")) with false in Hraises.
      change (str_eqb (typeof (VNum n)) (u "object")) with false in Hraises.
      cbv beta iota delta [obind] in Hraises.
      rewrite Ht in Hraises. discriminate.
    + unfold normalize in Hraises.
      rewrite normalize_with_string in Hraises. discriminate.
    + discriminate.
    + right. right. exists fields. split; [ reflexivity | ].
      destruct (truthy (lookup (u "text") fields)) eqn:Htext.
      * split; [ reflexivity | ]. intros s Hs.
        destruct s as [ | c s ]; [ rewrite Hs in Htext; discriminate | ].
        unfold normalize in Hraises.
        rewrite (@normalize_with_text_field _ fields (c :: s)) in Hraises;
          [ discriminate | assumption | discriminate ].
      * unfold normalize in Hraises.
        rewrite (normalize_with_falsy_text _ fields Htext) in Hraises.
        discriminate.
  - intros [ -> | [ -> | [ fields [ -> [ Htext Hnot ] ] ] ] ];
      try reflexivity.
    unfold normalize, normalize_with.
    change (str_eqb (typeof (VObj fields)) (u "string")) with false.
    change (str_eqb (typeof (VObj fields)) (u "object")) with true.
    cbv beta iota delta [obind prop_text]. rewrite Htext.
    destruct (lookup (u "text") fields) as [ | | b | n | s | l | l ];
      try reflexivity.
    now destruct (Hnot s).
Qed.

(* ================================================================== *)
(** ** The embedding request *)

Section MapItems.

Variables (A B : Type) (f : A -> outcome B).

Lemma map_items_length (l : list A) (ys : list B) :
  map_items f l = Return ys -> length ys = length l.
Proof.
  revert ys. induction l as [ | x l IH ]; intros ys H; cbn in H.
  - now inversion H.
  - destruct (f x) as [ y | e ]; cbn in H; [ | discriminate ].
    destruct (map_items f l) as [ ys' | e ]; cbn in H; [ | discriminate ].
    inversion H; subst. cbn. f_equal. now apply IH.
Qed.

Lemma map_items_nth (l : list A) (ys : list B) :
  map_items f l = Return ys ->
  forall i x, nth_error l i = Some x ->
  exists y, f x = Return y /\ nth_error ys i = Some y.
Proof.
  revert ys. induction l as [ | x0 l IH ]; intros ys H i x Hi.
  - destruct i; discriminate.
  - cbn in H.
    destruct (f x0) as [ y0 | e ] eqn:Hx0; cbn in H; [ | discriminate ].
    destruct (map_items f l) as [ ys' | e ]; cbn in H; [ | discriminate ].
    inversion H; subst.
    destruct i as [ | i ]; cbn in Hi.
    + inversion Hi; subst. exists y0. now split.
    + destruct (IH ys' eq_refl i x Hi) as [ y [Hy Hn] ].
      exists y. now split.
Qed.

Lemma map_items_defined (l : list A) :
  forallb (fun x => negb (raises (f x))) l = true ->
  exists ys, map_items f l = Return ys.
Proof.
  induction l as [ | x l IH ]; cbn; intros H.
  - now exists [].
  - apply andb_prop in H as [Hx Hl].
    destruct (IH Hl) as [ ys Hys ].
    destruct (f x) as [ y | e ]; [ | discriminate ].
    exists (y :: ys). cbn. now rewrite Hys.
Qed.

End MapItems.

(** What [generateEmbeddings] does with an array whose elements all have
    a normal form: one log line, one POST, and the error line when the
    POST is rejected. *)
Lemma generateEmbeddings_posts (w : world) (items strs : list value) st :
  items <> [] ->
  map_items normalize items = Return strs ->
  let headers := [authorization w; content_type_json] in
  let st1 := posted embeddings_url (embedding_request strs) headers
               (said (u "Attempting to generate embeddings...") st) in
  generateEmbeddings w (VArr items) st
  = match axios_post w embeddings_url (embedding_request strs) headers with
    | Return data => (Return data, st1)
    | Throw e =>
        (Return VNull, said (u "Error generating embeddings: " ++ message e) st1)
    end.
Proof.
  intros Hne Hmap headers st1. subst headers st1.
  destruct items as [ | item items' ]; [ congruence | ].
  unfold generateEmbeddings.
  change (negb (truthy (VArr (item :: items')))) with false. cbv iota.
  unfold bind at 1. unfold bind at 1. unfold lift at 1, prop_length, ret at 1.
  change (is_zero _) with false. cbv iota.
  unfold bind at 1. unfold lift at 1. unfold array_map. rewrite Hmap.
  unfold tryCatch, bind, log, emit, do_post, lift. cbn [trace asked].
  destruct (axios_post w embeddings_url (embedding_request strs)
              [authorization w; content_type_json]); reflexivity.
Qed.

(** The request for an array whose elements all have a normal form:
    model [jina-clip-v2], [normalized] true, [embedding_type] [float],
    and under [input] one [{text}] entry per element, in order. *)
Lemma generateEmbeddings_request (w : world) (items : list value) st :
  items <> [] ->
  forallb (fun item => negb (raises (normalize item))) items = true ->
  exists (entries : list value) (tail : list event),
    trace (snd (generateEmbeddings w (VArr items) st))
    = trace st
      ++ [Log (VStr (u "Attempting to generate embeddings..."));
          AxiosPost (u "https://api.jina.ai/v1/embeddings")
            (VObj [(u "model", VStr (u "jina-clip-v2"));
                   (u "normalized", VBool true);
                   (u "embedding_type", VStr (u "float"));
                   (u "input", VArr entries)])
            [(u "Authorization", JINA_AUTH_TOKEN w);
             (u "Content-Type", VStr (u "application/json"))]]
      ++ tail
    /\ network_calls tail = []
    /\ length entries = length items
    /\ forall i item, nth_error items i = Some item ->
         exists t, normalize item = Return t
                   /\ nth_error entries i = Some (VObj [(u "text", t)]).
Proof.
  intros Hne Hall.
  destruct (map_items_defined normalize items Hall) as [ strs Hmap ].
  exists (map (fun text => VObj [(u "text", text)]) strs).
  rewrite (generateEmbeddings_posts w st Hne Hmap).
  destruct (axios_post w embeddings_url (embedding_request strs)
              [authorization w; content_type_json]) as [ data | e ].
  - exists []. cbn [snd posted said trace].
    rewrite <- app_assoc. repeat split.
    + rewrite length_map. eapply map_items_length; eassumption.
    + intros i item Hi.
      destruct (map_items_nth normalize items Hmap i Hi) as [ t [Ht Hn] ].
      exists t. split; [ assumption | ].
      rewrite nth_error_map, Hn. reflexivity.
  - exists [Log (VStr (u "Error generating embeddings: " ++ message e))].
    cbn [snd posted said trace].
    rewrite <- !app_assoc. repeat split.
    + rewrite length_map. eapply map_items_length; eassumption.
    + intros i item Hi.
      destruct (map_items_nth normalize items Hmap i Hi) as [ t [Ht Hn] ].
      exists t. split; [ assumption | ].
      rewrite nth_error_map, Hn. reflexivity.
Qed.

Lemma generateEmbeddings_request_witness :
  let items := [VStr (u "Hello"); VObj [(u "text", VStr (u "world"))]] in
  exists (entries : list value) (tail : list event),
    trace (snd (generateEmbeddings online (VArr items) start))
    = trace start
      ++ [Log (VStr (u "Attempting to generate embeddings..."));
          AxiosPost (u "https://api.jina.ai/v1/embeddings")
            (VObj [(u "model", VStr (u "jina-clip-v2"));
                   (u "normalized", VBool true);
                   (u "embedding_type", VStr (u "float"));
                   (u "input", VArr entries)])
            [(u "Authorization", JINA_AUTH_TOKEN online);
             (u "Content-Type", VStr (u "application/json"))]]
      ++ tail
    /\ network_calls tail = []
    /\ length entries = length items
    /\ forall i item, nth_error items i = Some item ->
         exists t, normalize item = Return t
                   /\ nth_error entries i = Some (VObj [(u "text", t)]).
Proof.
  intro items.
  apply (@generateEmbeddings_request online items start).
  - discriminate.
  - reflexivity.
Defined.

(* ================================================================== *)
(** ** Exceptions at the stage boundary *)

(** A [catch] block that logs and returns [null] lets nothing through. *)
Lemma tryCatch_returns (body : M value) (line : error -> jsstring) st :
  raises (fst (tryCatch body (fun error => log (line error) ;; ret VNull) st))
  = false.
Proof.
  unfold tryCatch.
  destruct (body st) as [ [ a | e ] st' ]; reflexivity.
Qed.

(** [fetchContent] returns for every string and for every falsy
    argument. *)
Lemma fetchContent_returns (w : world) (url : value) st :
  truthy url = false \/ (exists s, url = VStr s) ->
  raises (fst (fetchContent w url st)) = false.
Proof.
  intros Hurl.
  assert (Hstr : exists s st1,
             forall k : value -> M value,
               bind (if negb (truthy url)
                     then (line <- question w (u "Enter the URL to fetch content: ") ;;
                           ret (VStr line))
                     else ret url) k st
               = k (VStr s) st1).
  { destruct (truthy url) eqn:Ht.
    - destruct Hurl as [ | [ s -> ] ]; [ discriminate | ].
      exists s, st. reflexivity.
    - exists (typed w (asked st)), (prompted (u "Enter the URL to fetch content: ") st).
      reflexivity. }
  destruct Hstr as [ s [ st1 Hk ] ].
  unfold fetchContent. rewrite Hk.
  unfold bind at 1. unfold lift at 1. unfold string_receiver.
  destruct (startsWith s (u "http")); cbn [negb].
  - apply tryCatch_returns.
  - reflexivity.
Qed.

(** The rest of [segmentText] once the content is a string. *)
Ltac segment_tail :=
  unfold bind at 1; unfold lift at 1; unfold string_receiver;
  match goal with
  | |- context [truthy (VStr (trim ?s))] => destruct (truthy (VStr (trim s)))
  end;
  cbn [negb]; [ apply tryCatch_returns | reflexivity ].

Ltac segment_serialized v :=
  let t := fresh "t" in
  let Ht := fresh "Ht" in
  destruct (@stringify_total v) as [ t Ht ]; [ discriminate | ];
  change (negb (str_eqb (typeof v) (u "string"))) with true;
  cbv iota; rewrite Ht; cbn [of_text]; segment_tail.

(** [segmentText] returns for every argument. *)
Lemma segmentText_returns (w : world) (content : value) st :
  raises (fst (segmentText w content st)) = false.
Proof.
  unfold segmentText. unfold bind at 1.
  destruct (truthy content) eqn:Ht; cbn [negb].
  - unfold ret at 1. cbv zeta.
    destruct content as [ | | b | n | s | items | fields ]; try discriminate.
    + segment_serialized (VBool b).
    + segment_serialized (VNum n).
    + change (negb (str_eqb (typeof (VStr s)) (u "string"))) with false.
      cbv iota. segment_tail.
    + segment_serialized (VArr items).
    + segment_serialized (VObj fields).
  - unfold bind at 1. rewrite question_run. unfold ret at 1. cbv zeta.
    change (negb (str_eqb (typeof (VStr (typed w (asked st)))) (u "string")))
      with false.
    cbv iota. segment_tail.
Qed.

(** [generateGeminiResponse] returns for every document and question:
    its whole body is inside the [try]. *)
Lemma generateGeminiResponse_returns (w : world) (document question : value) st :
  raises (fst (generateGeminiResponse w document question st)) = false.
Proof. apply tryCatch_returns. Qed.

(** [generateEmbeddings] returns when every element has a normal
    form. *)
Lemma generateEmbeddings_returns (w : world) (items : list value) st :
  forallb (fun item => negb (raises (normalize item))) items = true ->
  raises (fst (generateEmbeddings w (VArr items) st)) = false.
Proof.
  intros Hall.
  destruct items as [ | item items' ]; [ reflexivity | ].
  destruct (map_items_defined normalize _ Hall) as [ strs Hmap ].
  rewrite (@generateEmbeddings_posts w _ strs st); [ | discriminate | assumption ].
  destruct (axios_post _ _ _ _); reflexivity.
Qed.

(** C3 at [generateEmbeddings([null])].  The callback of [inputs.map]
    runs before the [try]; [typeof null] is [object], so it reads
    [null.text], and the TypeError leaves the function: nothing is
    logged, nothing is returned. *)
Theorem generateEmbeddings_null_item_throws (w : world) st :
  generateEmbeddings w (VArr [VNull]) st
  = (Throw (TypeError (u "Cannot read properties of null (reading 'text')")), st).
Proof. reflexivity. Qed.

(** The same happens for an object whose [text] is truthy and not a
    string, and for an [undefined] element. *)
Lemma generateEmbeddings_bad_items_throw (w : world) st :
  raises (fst (generateEmbeddings w
                 (VArr [VObj [(u "text", VNum (Finite (u "5")))]]) st)) = true
  /\ raises (fst (generateEmbeddings w (VArr [VUndefined]) st)) = true.
Proof. split; reflexivity. Qed.

(* ================================================================== *)
(** ** The prompt of generateGeminiResponse *)

Lemma replace_found (s pattern replacement : jsstring) (i : nat) :
  indexOf s pattern = Some i ->
  replace s pattern replacement
  = firstn i s
    ++ getSubstitution pattern (firstn i s) (skipn (i + length pattern) s)
         replacement
    ++ skipn (i + length pattern) s.
Proof. intros H. unfold replace. now rewrite H. Qed.

(** [generateGeminiResponse] tests nothing: its first effect is the call
    of the model with the filled template. *)
Lemma generateGeminiResponse_run (w : world) (document question : value) st :
  let prompt := formattedPrompt document question in
  generateGeminiResponse w document question st
  = match generateContent w prompt with
    | Return t => (Return (VStr t), submitted prompt st)
    | Throw e =>
        (Return VNull,
         said (u "Error generating Gemini response: " ++ message e)
           (submitted prompt st))
    end.
Proof.
  intro prompt. subst prompt.
  unfold generateGeminiResponse, tryCatch, bind, do_generate, emit, lift, log, ret.
  cbn [trace asked].
  destruct (generateContent w (formattedPrompt document question)); reflexivity.
Qed.

Ltac fill_slot :=
  unfold formattedPrompt;
  erewrite replace_found by (vm_compute; reflexivity);
  eexists;
  match goal with
  | |- firstn ?i ?s ++ _ = ?head ++ ?slot ++ ?middle ++ _ =>
      replace (firstn i s) with (head ++ slot ++ middle)
        by (vm_compute; reflexivity)
  end;
  rewrite <- !app_assoc; reflexivity.

(** For a falsy document the slot holds the serialized document as it
    is: none of its texts contains a [$] pattern. *)
Lemma formattedPrompt_falsy (document question : value) :
  truthy document = false ->
  exists rest,
    formattedPrompt document question
    = prompt_head ++ document_slot document ++ prompt_middle ++ rest.
Proof.
  intros Hfalsy.
  destruct document as [ | | [ | ] | [ | [ | ] | | ] | [ | c s ] | | ];
    try discriminate; fill_slot.
Qed.

Lemma document_slot_undefined (document : value) :
  truthy document = false ->
  document_slot document = u "undefined" <-> document = VUndefined.
Proof.
  intros Hfalsy.
  destruct document as [ | | [ | ] | [ | [ | ] | | ] | [ | c s ] | | ];
    try discriminate; split; intros H; try reflexivity;
    vm_compute in H; discriminate.
Qed.

(** C10, as the code has it.  For every falsy document
    [generateGeminiResponse] tests nothing and submits the filled
    template: the slot holds the serialized document, which is the
    literal [undefined] exactly when the document is [undefined] (for
    [null], [false], [0], [NaN] and the empty string it is their JSON
    text), and the call of the model is the first thing that happens. *)
Theorem generateGeminiResponse_submits_falsy_document
    (w : world) (document question : value) st :
  truthy document = false ->
  (exists rest,
     formattedPrompt document question
     = prompt_head ++ document_slot document ++ prompt_middle ++ rest)
  /\ (document_slot document = u "undefined" <-> document = VUndefined)
  /\ (exists tail,
        trace (snd (generateGeminiResponse w document question st))
        = trace st ++ GenerateContent (formattedPrompt document question) :: tail
        /\ network_calls tail = []).
Proof.
  intros Hfalsy. split; [ | split ].
  - now apply formattedPrompt_falsy.
  - now apply document_slot_undefined.
  - rewrite generateGeminiResponse_run.
    destruct (generateContent w (formattedPrompt document question)) as [ t | e ].
    + exists []. split; reflexivity.
    + exists [Log (VStr (u "Error generating Gemini response: " ++ message e))].
      split; [ | reflexivity ].
      cbn [snd said submitted trace]. now rewrite <- app_assoc.
Qed.

Lemma generateGeminiResponse_submits_falsy_document_witness :
  (exists rest,
     formattedPrompt VUndefined (VStr (u "What does it say?"))
     = prompt_head ++ document_slot VUndefined ++ prompt_middle ++ rest)
  /\ (document_slot VUndefined = u "undefined" <-> VUndefined = VUndefined)
  /\ (exists tail,
        trace (snd (generateGeminiResponse online VUndefined
                      (VStr (u "What does it say?")) start))
        = trace start
          ++ GenerateContent
               (formattedPrompt VUndefined (VStr (u "What does it say?")))
             :: tail
        /\ network_calls tail = []).
Proof.
  apply (generateGeminiResponse_submits_falsy_document
           online VUndefined (VStr (u "What does it say?")) start).
  reflexivity.
Defined.

(** C10 as stated fails at the falsy document [null]: the request is
    submitted, and the template is filled with [null]; the text
    [undefined] occurs nowhere in it. *)
Lemma generateGeminiResponse_null_document_says_null :
  truthy VNull = false
  /\ network_calls
       (trace (snd (generateGeminiResponse online VNull
                      (VStr (u "What does it say?")) start)))
     = [GenerateContent (formattedPrompt VNull (VStr (u "What does it say?")))]
  /\ formattedPrompt VNull (VStr (u "What does it say?"))
     = prompt_head ++ u "null" ++ prompt_middle ++ u "What does it say?" ++ nl
       ++ u "---*INSTRUCTIONS:*" ++ nl
       ++ u "- Answer the user's question using the information from the document above" ++ nl
       ++ u "- Ensure your response is factual, specific, and relevant to the question" ++ nl
       ++ u "- Keep your answer clear and concise, ideally within 2-3 sentences"
  /\ includes (formattedPrompt VNull (VStr (u "What does it say?")))
       (u "undefined") = false.
Proof. repeat split; vm_compute; reflexivity. Qed.

(* ================================================================== *)
(** ** Every call of stages 3 and 4 leaves a mark *)

(** [generateEmbeddings] either logs that it has nothing to do, or
    throws before any effect, or logs and posts. *)
Lemma generateEmbeddings_cases (w : world) (inputs : value) st :
  generateEmbeddings w inputs st
  = (Return VNull, said (u "No inputs provided for embedding generation.") st)
  \/ (exists e, generateEmbeddings w inputs st = (Throw e, st))
  \/ (exists strs r tail,
        generateEmbeddings w inputs st
        = (r, {| trace := trace st
                   ++ Log (VStr (u "Attempting to generate embeddings..."))
                   :: AxiosPost embeddings_url (embedding_request strs)
                        [authorization w; content_type_json]
                   :: tail;
                 asked := asked st;
                 paused := paused st |})).
Proof.
  unfold generateEmbeddings.
  set (inputs' := match inputs with VUndefined => VArr [] | _ => inputs end).
  cbv beta iota
      delta [bind lift ret tryCatch log emit do_post trace asked paused said].
  destruct (truthy inputs'); cbv beta iota delta [negb];
    [ | left; reflexivity ].
  destruct (prop_length inputs') as [ len | e ];
    [ | right; left; now exists e ].
  destruct (is_zero len); [ left; reflexivity | ].
  destruct (array_map "inputs" normalize inputs') as [ strs | e ];
    [ | right; left; now exists e ].
  right. right. exists strs.
  destruct (axios_post w embeddings_url (embedding_request strs)
              [authorization w; content_type_json]) as [ data | e ].
  - exists (Return data), []. destruct st as [ t n p ].
    now rewrite <- app_assoc.
  - exists (Return VNull),
      [Log (VStr (u "Error generating embeddings: " ++ message e))].
    destruct st as [ t n p ]. now rewrite <- !app_assoc.
Qed.

(* ================================================================== *)
(** ** The orchestration in main *)

Ltac run_main :=
  cbv beta iota zeta
      delta [main bindP await createInterface rl_question rl_close
             ret log emit negb
             said shown opened answered waiting closed
             at_stage1 at_stage2 at_stage3 at_stage4 trace asked paused].

(** [main] as the chain of its four calls.  Between the third and the
    fourth lies its second question, which is answered only while
    [process.stdin] is not paused. *)
Lemma main_unfold (w : world) st :
  main w st
  = match fetchContent w (VStr (typed w (asked st))) (at_stage1 st) with
    | (Throw e, s) => (Settled (Throw e), s)
    | (Return fetchedContent, s2) =>
        if truthy fetchedContent then
          match segmentText w fetchedContent (at_stage2 s2) with
          | (Throw e, s) => (Settled (Throw e), s)
          | (Return segmentedContent, s3) =>
              if truthy segmentedContent then
                match generateEmbeddings w (VArr [segmentedContent]) (at_stage3 s3) with
                | (Throw e, s) => (Settled (Throw e), s)
                | (Return _, s4) =>
                    if paused s4 then
                      (Unsettled,
                       waiting (u "Ask a question about the fetched content: ")
                         (said (nl ++ u "--- Step 4: Generating AI Response ---") s4))
                    else
                      match generateGeminiResponse w segmentedContent
                              (VStr (typed w (asked s4))) (at_stage4 s4) with
                      | (Throw e, s) => (Settled (Throw e), s)
                      | (Return geminiResponse, s5) =>
                          if truthy geminiResponse then
                            (Settled (Return VUndefined),
                             closed
                               (said (nl ++ u "Workflow completed successfully!")
                                  (shown geminiResponse
                                     (said (nl ++ u "--- Gemini's Response ---") s5))))
                          else
                            (Settled (Return VUndefined),
                             closed
                               (said (nl ++ u "Workflow encountered an error during AI response generation.") s5))
                      end
                end
              else
                (Settled (Return VUndefined),
                 closed (said (u "Text segmentation failed. Exiting.") s3))
          end
        else
          (Settled (Return VUndefined),
           closed (said (u "Content fetching failed. Exiting.") s2))
    end.
Proof.
  destruct st as [ tr n p ]. run_main.
  match goal with
  | |- context [fetchContent w ?a ?b] =>
      destruct (fetchContent w a b) as [ [ c | e ] [ tr2 n2 p2 ] ]
  end; [ | reflexivity ].
  destruct (truthy c); [ | reflexivity ].
  match goal with
  | |- context [segmentText w ?a ?b] =>
      destruct (segmentText w a b) as [ [ sc | e ] [ tr3 n3 p3 ] ]
  end; [ | reflexivity ].
  destruct (truthy sc); [ | reflexivity ].
  match goal with
  | |- context [generateEmbeddings w ?a ?b] =>
      destruct (generateEmbeddings w a b) as [ [ emb | e ] [ tr4 n4 p4 ] ]
  end; [ | reflexivity ].
  destruct p4; [ reflexivity | ].
  match goal with
  | |- context [generateGeminiResponse w ?a ?b ?c] =>
      destruct (generateGeminiResponse w a b c) as [ [ ans | e ] [ tr5 n5 p5 ] ]
  end; [ | reflexivity ].
  destruct (truthy ans); reflexivity.
Qed.

(** C1.  When stage 1 has delivered a content and [segmentText] returns
    [null] for it, [main] logs [Text segmentation failed. Exiting.],
    closes its interface and returns.  That line is all that follows the
    segmentation in the trace: no banner of step 3 or 4, no prompt for a
    question, no POST to the embedding service and no call of the model,
    so neither [generateEmbeddings] nor [generateGeminiResponse] has
    run. *)
Theorem main_stops_when_segmentation_fails
    (w : world) (st st2 st3 : state) (content : value) :
  fetchContent w (VStr (typed w (asked st))) (at_stage1 st)
    = (Return content, st2) ->
  truthy content = true ->
  segmentText w content (at_stage2 st2) = (Return VNull, st3) ->
  main w st
  = (Return VUndefined, closed (said (u "Text segmentation failed. Exiting.") st3))
  /\ trace (snd (main w st))
     = trace st3 ++ [Log (VStr (u "Text segmentation failed. Exiting."))]
  /\ network_calls (trace (snd (main w st))) = network_calls (trace st3).
Proof.
  intros Hfetch Hcontent Hsegment.
  assert (Hmain : main w st
                  = (Settled (Return VUndefined),
                     closed (said (u "Text segmentation failed. Exiting.") st3))).
  { now rewrite main_unfold, Hfetch, Hcontent, Hsegment. }
  rewrite Hmain. repeat split.
  cbn [snd closed trace]. apply network_calls_said.
Qed.

Lemma main_stops_when_segmentation_fails_witness :
  let st2 := snd (fetchContent segmenter_down (VStr (u "https://example.com"))
                    (at_stage1 start)) in
  let st3 := snd (segmentText segmenter_down segments (at_stage2 st2)) in
  main segmenter_down start
  = (Return VUndefined, closed (said (u "Text segmentation failed. Exiting.") st3))
  /\ trace (snd (main segmenter_down start))
     = trace st3 ++ [Log (VStr (u "Text segmentation failed. Exiting."))]
  /\ network_calls (trace (snd (main segmenter_down start)))
     = network_calls (trace st3).
Proof.
  intros st2 st3.
  apply (@main_stops_when_segmentation_fails
           segmenter_down start st2 st3 segments).
  - reflexivity.
  - reflexivity.
  - reflexivity.
Defined.

(* ================================================================== *)
(** ** The stages once their argument is known: run lemmas *)

Ltac split_outcomes w :=
  let ct := fresh "ct" in
  let j := fresh "j" in
  let t := fresh "t" in
  destruct (import_node_fetch w); cbv beta iota; [ | reflexivity ];
  match goal with
  | |- context [fetch w ?r] => destruct (fetch w r) as [ [ ct j t ] | ? ]
  end;
  cbv beta iota delta [json text content_type]; [ | reflexivity ];
  destruct ct; destruct j; destruct t; cbv beta iota;
  repeat (match goal with
          | |- context [includes ?a ?b] => destruct (includes a b)
          | |- context [body_textContent ?w' ?x] =>
              destruct (body_textContent w' x)
          end; cbv beta iota);
  reflexivity.

Lemma fetchContent_known (w : world) (url : jsstring) st :
  fetchContent w (VStr url) st
  = fetch_outcome w (examined w st url)
      (after_prompt (u "Enter the URL to fetch content: ") st (VStr url)).
Proof.
  destruct (startsWith (examined w st url) (u "http")) eqn:Hs.
  - unfold fetch_outcome. rewrite Hs.
    destruct st as [ tr n ].
    destruct url as [ | c url' ]; cbn [examined asked] in Hs;
      cbn [examined after_prompt truthy];
      unfold fetchContent;
      [ change (negb (truthy (VStr []))) with true
      | change (negb (truthy (VStr (c :: url')))) with false ];
      cbv beta iota zeta
          delta [bind ret lift tryCatch log emit do_fetch question
                 string_receiver decode obind said prompted fetched
                 trace asked reader_request authorization content_type];
      rewrite Hs; cbv beta iota delta [negb];
      split_outcomes w.
  - unfold fetch_outcome. rewrite Hs.
    destruct url as [ | c url' ]; cbn [examined] in Hs;
      cbn [examined after_prompt truthy].
    + now apply fetchContent_asks_when_empty.
    + apply fetchContent_refuses; [ discriminate | assumption ].
Qed.

Ltac split_segment w :=
  let ct := fresh "ct" in
  let j := fresh "j" in
  let t := fresh "t" in
  cbv beta iota zeta
      delta [bind ret lift tryCatch log emit do_fetch string_receiver obind
             said prompted fetched trace asked segment_request
             authorization content_type_json];
  match goal with
  | |- context [truthy (VStr (trim ?s))] => destruct (truthy (VStr (trim s)))
  end;
  cbv beta iota delta [negb]; [ | reflexivity ];
  destruct (import_node_fetch w); cbv beta iota; [ | reflexivity ];
  match goal with
  | |- context [fetch w ?r] => destruct (fetch w r) as [ [ ct j t ] | ? ]
  end;
  cbv beta iota delta [json]; [ | reflexivity ];
  destruct j; reflexivity.

(** The content that is segmented, once the first test has kept it. *)
Lemma segmented_text_kept (w : world) (content : value) st :
  truthy content = true ->
  (if negb (str_eqb (typeof content) (u "string"))
   then of_text (stringify content) else content)
  = VStr (segmented_text w st content).
Proof.
  intros Ht. unfold segmented_text. rewrite Ht.
  destruct content as [ | | b | n | s | items | fields ]; try discriminate.
  - destruct (@stringify_total (VBool b)) as [ t Hs ]; [ discriminate | ].
    change (negb (str_eqb (typeof (VBool b)) (u "string"))) with true.
    cbv iota. now rewrite Hs.
  - destruct (@stringify_total (VNum n)) as [ t Hs ]; [ discriminate | ].
    change (negb (str_eqb (typeof (VNum n)) (u "string"))) with true.
    cbv iota. now rewrite Hs.
  - reflexivity.
  - destruct (@stringify_total (VArr items)) as [ t Hs ]; [ discriminate | ].
    change (negb (str_eqb (typeof (VArr items)) (u "string"))) with true.
    cbv iota. now rewrite Hs.
  - destruct (@stringify_total (VObj fields)) as [ t Hs ]; [ discriminate | ].
    change (negb (str_eqb (typeof (VObj fields)) (u "string"))) with true.
    cbv iota. now rewrite Hs.
Qed.

Lemma segmentText_known (w : world) (content : value) st :
  segmentText w content st
  = segment_outcome w (segmented_text w st content)
      (after_prompt (u "Enter the text to segment: ") st content).
Proof.
  unfold segment_outcome, after_prompt.
  destruct (truthy content) eqn:Ht.
  - unfold segmentText. rewrite Ht. cbn [negb].
    unfold bind at 1. unfold ret at 1. cbv beta iota zeta.
    rewrite (segmented_text_kept w content st Ht).
    destruct st as [ tr n ]. split_segment w.
  - unfold segmentText. rewrite Ht. cbn [negb].
    unfold bind at 1. unfold bind at 1. rewrite question_run.
    unfold ret at 1. cbv beta iota zeta.
    unfold segmented_text. rewrite Ht.
    change (negb (str_eqb (typeof (VStr (typed w (asked st)))) (u "string")))
      with false.
    cbv iota.
    destruct st as [ tr n ]. split_segment w.
Qed.

Lemma network_calls_fetched (r : request) st :
  network_calls (trace (fetched r st)) = network_calls (trace st) ++ [HttpFetch r].
Proof. cbn. now rewrite network_calls_app. Qed.

Lemma network_calls_after_prompt (prompt : jsstring) (v : value) st :
  network_calls (trace (after_prompt prompt st v)) = network_calls (trace st).
Proof.
  unfold after_prompt. destruct (truthy v); [ reflexivity | ].
  apply network_calls_prompted.
Qed.

(* ================================================================== *)
(** ** fetchContent: the branch on the content type *)

(** X1.  A response whose content type mentions [application/json] is
    parsed as JSON and the parsed value is returned as it is, even when
    the type also mentions [text/html]; the text of the body and the DOM
    parser are not consulted, and a body that does not parse gives
    [null]. *)
Theorem fetchContent_json_first
    (w : world) (url ct : jsstring) (r : response) st :
  startsWith (examined w st url) (u "http") = true ->
  import_node_fetch w = Return tt ->
  fetch w (reader_request w (examined w st url)) = Return r ->
  content_type r = VStr ct ->
  includes ct (u "application/json") = true ->
  fst (fetchContent w (VStr url) st)
  = match json r with
    | Return data => Return data
    | Throw _ => Return VNull
    end.
Proof.
  intros Hs Himport Hfetch Hct Hjson.
  rewrite fetchContent_known. unfold fetch_outcome.
  rewrite Hs, Himport, Hfetch. cbn [obind]. unfold decode.
  rewrite Hct. cbn [string_receiver obind]. rewrite Hjson.
  destruct (json r); reflexivity.
Qed.

Lemma fetchContent_json_first_witness :
  fst (fetchContent online (VStr (u "https://example.com")) start)
  = match json {| content_type := VStr (u "application/json");
                  json := Return segments;
                  text := Return (u "Hello world") |} with
    | Return data => Return data
    | Throw _ => Return VNull
    end.
Proof.
  apply (@fetchContent_json_first online (u "https://example.com")
           (u "application/json")
           {| content_type := VStr (u "application/json");
              json := Return segments;
              text := Return (u "Hello world") |} start);
    reflexivity.
Defined.

(** X2.  A response whose content type mentions [text/html] and not
    [application/json] is read as text, handed to the DOM parser, and the
    text content of the body is returned as a string; a failure of
    either step gives [null]. *)
Theorem fetchContent_html_body_text
    (w : world) (url ct : jsstring) (r : response) st :
  startsWith (examined w st url) (u "http") = true ->
  import_node_fetch w = Return tt ->
  fetch w (reader_request w (examined w st url)) = Return r ->
  content_type r = VStr ct ->
  includes ct (u "application/json") = false ->
  includes ct (u "text/html") = true ->
  fst (fetchContent w (VStr url) st)
  = match text r with
    | Return t =>
        match body_textContent w t with
        | Return b => Return (VStr b)
        | Throw _ => Return VNull
        end
    | Throw _ => Return VNull
    end.
Proof.
  intros Hs Himport Hfetch Hct Hjson Hhtml.
  rewrite fetchContent_known. unfold fetch_outcome.
  rewrite Hs, Himport, Hfetch. cbn [obind]. unfold decode.
  rewrite Hct. cbn [string_receiver obind]. rewrite Hjson, Hhtml.
  destruct (text r) as [ t | e ]; cbn [obind]; [ | reflexivity ].
  destruct (body_textContent w t); reflexivity.
Qed.

(** X3.  Any other declared content type gives the raw text of the
    body. *)
Theorem fetchContent_other_type_raw_text
    (w : world) (url ct : jsstring) (r : response) st :
  startsWith (examined w st url) (u "http") = true ->
  import_node_fetch w = Return tt ->
  fetch w (reader_request w (examined w st url)) = Return r ->
  content_type r = VStr ct ->
  includes ct (u "application/json") = false ->
  includes ct (u "text/html") = false ->
  fst (fetchContent w (VStr url) st)
  = match text r with
    | Return t => Return (VStr t)
    | Throw _ => Return VNull
    end.
Proof.
  intros Hs Himport Hfetch Hct Hjson Hhtml.
  rewrite fetchContent_known. unfold fetch_outcome.
  rewrite Hs, Himport, Hfetch. cbn [obind]. unfold decode.
  rewrite Hct. cbn [string_receiver obind]. rewrite Hjson, Hhtml.
  destruct (text r); reflexivity.
Qed.

(** X4.  A response without a content-type header (the header lookup
    gives [null], or anything that is not a string) is a soft failure:
    the request has been sent, [null] is returned, and the last line
    logged is the error line, not the success line. *)
Theorem fetchContent_missing_content_type
    (w : world) (url : jsstring) (r : response) st :
  startsWith (examined w st url) (u "http") = true ->
  import_node_fetch w = Return tt ->
  fetch w (reader_request w (examined w st url)) = Return r ->
  (forall ct, content_type r <> VStr ct) ->
  fst (fetchContent w (VStr url) st) = Return VNull
  /\ network_calls (trace (snd (fetchContent w (VStr url) st)))
     = network_calls (trace st) ++ [HttpFetch (reader_request w (examined w st url))]
  /\ exists e,
       last (trace (snd (fetchContent w (VStr url) st))) (Log VNull)
       = Log (VStr (u "Error fetching content: " ++ message e)).
Proof.
  intros Hs Himport Hfetch Hct.
  rewrite fetchContent_known. unfold fetch_outcome.
  rewrite Hs, Himport, Hfetch. cbn [obind]. unfold decode.
  destruct (string_receiver "contentType" "includes" (content_type r))
    as [ ct | e ] eqn:Hrecv.
  - destruct (content_type r); try discriminate.
    inversion Hrecv; subst. now destruct (Hct ct).
  - cbn [obind fst snd]. repeat split.
    + rewrite network_calls_said, network_calls_fetched, network_calls_said.
      now rewrite network_calls_after_prompt.
    + exists e. cbn [said trace]. apply last_last.
Qed.

Lemma fetchContent_html_body_text_witness :
  fst (fetchContent (serving html_page) (VStr (u "https://example.com/article")) start)
  = match text html_page with
    | Return t =>
        match body_textContent (serving html_page) t with
        | Return b => Return (VStr b)
        | Throw _ => Return VNull
        end
    | Throw _ => Return VNull
    end.
Proof.
  apply (@fetchContent_html_body_text (serving html_page)
           (u "https://example.com/article") (u "text/html; charset=utf-8")
           html_page start);
    reflexivity.
Defined.

Lemma fetchContent_other_type_raw_text_witness :
  fst (fetchContent (serving plain_page) (VStr (u "https://example.com/notes.txt")) start)
  = match text plain_page with
    | Return t => Return (VStr t)
    | Throw _ => Return VNull
    end.
Proof.
  apply (@fetchContent_other_type_raw_text (serving plain_page)
           (u "https://example.com/notes.txt") (u "text/plain")
           plain_page start);
    reflexivity.
Defined.

Lemma fetchContent_missing_content_type_witness :
  let w := serving untyped_page in
  let url := u "https://example.com" in
  fst (fetchContent w (VStr url) start) = Return VNull
  /\ network_calls (trace (snd (fetchContent w (VStr url) start)))
     = network_calls (trace start)
       ++ [HttpFetch (reader_request w (examined w start url))]
  /\ exists e,
       last (trace (snd (fetchContent w (VStr url) start))) (Log VNull)
       = Log (VStr (u "Error fetching content: " ++ message e)).
Proof.
  intros w url.
  apply (@fetchContent_missing_content_type w url untyped_page start).
  - reflexivity.
  - reflexivity.
  - reflexivity.
  - intros ct. discriminate.
Defined.

(* ================================================================== *)
(** ** When a request is sent, and which *)

(** X5.  [fetchContent] sends a request exactly when the URL it tests
    starts with [http] and node-fetch can be loaded; it is then one GET
    of [https://r.jina.ai/] followed by that URL, with the token in the
    [Authorization] header and no body.  Otherwise nothing is sent.
    Whatever the answer, there is no second request. *)
Theorem fetchContent_requests (w : world) (url : jsstring) st :
  network_calls (trace (snd (fetchContent w (VStr url) st)))
  = network_calls (trace st)
    ++ (if startsWith (examined w st url) (u "http")
           && negb (raises (import_node_fetch w))
        then [HttpFetch
                {| req_url := u "https://r.jina.ai/" ++ examined w st url;
                   req_method := u "GET";
                   req_headers := [(u "Authorization", JINA_AUTH_TOKEN w)];
                   req_body := VUndefined |}]
        else []).
Proof.
  rewrite fetchContent_known. unfold fetch_outcome.
  destruct (startsWith (examined w st url) (u "http")); cbn [andb].
  - destruct (import_node_fetch w) as [ [] | e ]; cbn [raises negb].
    + destruct (let! r := fetch w (reader_request w (examined w st url)) in
                decode w r);
        cbn [snd];
        rewrite network_calls_said, network_calls_fetched, network_calls_said;
        now rewrite network_calls_after_prompt.
    + cbn [snd]. rewrite !network_calls_said, network_calls_after_prompt.
      now rewrite app_nil_r.
  - cbn [snd]. rewrite network_calls_said, network_calls_after_prompt.
    now rewrite app_nil_r.
Qed.

(** X6.  [segmentText] sends a request exactly when the text it tests is
    not blank and node-fetch can be loaded; it is then one POST to
    [https://segment.jina.ai/] whose body is the JSON text of
    [{content, return_chunks: true, return_tokens: true,
    max_chunk_length: 1500}] with that text as [content].  Otherwise
    nothing is sent, and there is no second request. *)
Theorem segmentText_requests (w : world) (content : value) st :
  network_calls (trace (snd (segmentText w content st)))
  = network_calls (trace st)
    ++ (if truthy (VStr (trim (segmented_text w st content)))
           && negb (raises (import_node_fetch w))
        then [HttpFetch
                {| req_url := u "https://segment.jina.ai/";
                   req_method := u "POST";
                   req_headers :=
                     [(u "Authorization", JINA_AUTH_TOKEN w);
                      (u "Content-Type", VStr (u "application/json"))];
                   req_body :=
                     of_text
                       (stringify
                          (VObj [(u "content", VStr (segmented_text w st content));
                                 (u "return_chunks", VBool true);
                                 (u "return_tokens", VBool true);
                                 (u "max_chunk_length", VNum (Finite (u "1500")))])) |}]
        else []).
Proof.
  rewrite segmentText_known. unfold segment_outcome.
  destruct (truthy (VStr (trim (segmented_text w st content)))); cbn [andb].
  - destruct (import_node_fetch w) as [ [] | e ]; cbn [raises negb].
    + destruct (let! r := fetch w (segment_request w (segmented_text w st content)) in
                json r);
        cbn [snd];
        rewrite network_calls_said, network_calls_fetched, network_calls_said;
        now rewrite network_calls_after_prompt.
    + cbn [snd]. rewrite !network_calls_said, network_calls_after_prompt.
      now rewrite app_nil_r.
  - cbn [snd]. rewrite network_calls_said, network_calls_after_prompt.
    now rewrite app_nil_r.
Qed.

(** X7.  A truthy content that is not a string is segmented exactly as
    its JSON text would be: [segmentText(v)] and
    [segmentText(JSON.stringify(v))] are the same run. *)
Theorem segmentText_serializes_first
    (w : world) (content : value) (t : jsstring) st :
  truthy content = true ->
  (forall s, content <> VStr s) ->
  stringify content = Some t ->
  t <> [] ->
  segmentText w content st = segmentText w (VStr t) st.
Proof.
  intros Ht Hnot Hjson Hne.
  rewrite !segmentText_known.
  assert (Htruthy : truthy (VStr t) = true)
    by (destruct t; [ congruence | reflexivity ]).
  unfold after_prompt, segmented_text. rewrite Ht, Htruthy, Hjson.
  destruct content; try reflexivity. now destruct (Hnot s).
Qed.

Lemma segmentText_serializes_first_witness :
  segmentText online segments start
  = segmentText online
      (VStr (u "{" ++ dquote ++ u "num_chunks" ++ dquote ++ u ":1,"
             ++ dquote ++ u "chunks" ++ dquote ++ u ":["
             ++ dquote ++ u "Hello world" ++ dquote ++ u "]}"))
      start.
Proof.
  apply (@segmentText_serializes_first online segments _ start).
  - reflexivity.
  - intros s. discriminate.
  - reflexivity.
  - discriminate.
Defined.

(** X8.  A stage reads the terminal exactly when its argument is falsy,
    and then reads one line: [fetchContent] for the empty URL,
    [segmentText] for a falsy content. *)
Theorem stages_prompt_only_for_falsy_argument
    (w : world) (url : jsstring) (content : value) st :
  asked (snd (fetchContent w (VStr url) st))
  = (if truthy (VStr url) then asked st else S (asked st))
  /\ asked (snd (segmentText w content st))
     = (if truthy content then asked st else S (asked st)).
Proof.
  split.
  - rewrite fetchContent_known. unfold fetch_outcome, after_prompt.
    destruct (truthy (VStr url));
      destruct (startsWith (examined w st url) (u "http")); try reflexivity;
      destruct (import_node_fetch w); try reflexivity;
      destruct (let! r := fetch w (reader_request w (examined w st url)) in
                decode w r); reflexivity.
  - rewrite segmentText_known. unfold segment_outcome, after_prompt.
    destruct (truthy content);
      destruct (truthy (VStr (trim (segmented_text w st content))));
      try reflexivity;
      destruct (import_node_fetch w); try reflexivity;
      destruct (let! r := fetch w (segment_request w (segmented_text w st content)) in
                json r); reflexivity.
Qed.

(* ================================================================== *)
(** ** Normal forms of the embedding inputs *)

(** Every normal form is [substring(0, 1000)] of some string. *)
Lemma normalize_is_truncation (item t : value) :
  normalize item = Return t ->
  exists s, t = VStr (firstn 1000 s).
Proof.
  unfold normalize, normalize_with. intros H.
  destruct (str_eqb (typeof item) (u "string")).
  - destruct (string_receiver "item" "substring" item) as [ s | e ];
      cbn [obind] in H; [ | discriminate ].
    inversion H. exists s. now rewrite substring_from_zero.
  - destruct (if str_eqb (typeof item) (u "object")
              then let! t0 := prop_text item in Return (truthy t0)
              else Return false) as [ [ | ] | e ];
      cbn [obind] in H; [ | | discriminate ].
    + destruct (prop_text item) as [ x | e ]; cbn [obind] in H; [ | discriminate ].
      destruct (string_receiver "item.text" "substring" x) as [ s | e ];
        cbn [obind] in H; [ | discriminate ].
      inversion H. exists s. now rewrite substring_from_zero.
    + destruct (string_receiver "JSON.stringify(...)" "substring"
                  (of_text (stringify item))) as [ s | e ];
        cbn [obind] in H; [ | discriminate ].
      inversion H. exists s. now rewrite substring_from_zero.
Qed.

(** X9.  Whatever the element, its normal form is a string of at most
    1000 code units. *)
Theorem normalize_bounded (item t : value) :
  normalize item = Return t ->
  exists s, t = VStr s /\ length s <= 1000.
Proof.
  intros H. destruct (normalize_is_truncation item H) as [ s -> ].
  exists (firstn 1000 s). split; [ reflexivity | ].
  rewrite length_firstn. apply Nat.le_min_l.
Qed.

Lemma normalize_bounded_witness :
  exists s,
    VStr (u "{" ++ dquote ++ u "num_chunks" ++ dquote ++ u ":1,"
          ++ dquote ++ u "chunks" ++ dquote ++ u ":["
          ++ dquote ++ u "Hello world" ++ dquote ++ u "]}") = VStr s
    /\ length s <= 1000.
Proof.
  apply (@normalize_bounded segments). reflexivity.
Defined.

(** X10.  Normalization is idempotent: a normal form is its own normal
    form, so an input that went through it once can go through it
    again. *)
Theorem normalize_idempotent (item t : value) :
  normalize item = Return t ->
  normalize t = Return t.
Proof.
  intros H. destruct (normalize_is_truncation item H) as [ s -> ].
  unfold normalize. rewrite normalize_with_string.
  rewrite firstn_firstn. now rewrite Nat.min_id.
Qed.

Lemma normalize_idempotent_witness :
  normalize (VStr (firstn 1000 (repeat 97%N 1500)))
  = Return (VStr (firstn 1000 (repeat 97%N 1500))).
Proof.
  apply (@normalize_idempotent (VStr (repeat 97%N 1500))).
  apply normalize_with_string.
Defined.

(** X11.  The normal form of a string is a prefix of it, and the string
    itself when it has at most 1000 code units: nothing is added,
    nothing is escaped. *)
Theorem normalize_string_prefix (s : jsstring) :
  (exists rest, normalize (VStr s) = Return (VStr (firstn 1000 s))
                /\ s = firstn 1000 s ++ rest)
  /\ (length s <= 1000 -> normalize (VStr s) = Return (VStr s)).
Proof.
  split.
  - exists (skipn 1000 s). split.
    + apply normalize_with_string.
    + symmetry. apply firstn_skipn.
  - intros Hshort. unfold normalize. rewrite normalize_with_string.
    now rewrite firstn_all2.
Qed.

Lemma normalize_string_prefix_witness :
  (exists rest, normalize (VStr (u "Hello world"))
                = Return (VStr (firstn 1000 (u "Hello world")))
                /\ u "Hello world" = firstn 1000 (u "Hello world") ++ rest)
  /\ normalize (VStr (u "Hello world")) = Return (VStr (u "Hello world")).
Proof.
  destruct (normalize_string_prefix (u "Hello world")) as [ Hprefix Hshort ].
  split; [ exact Hprefix | ].
  apply Hshort. vm_compute. lia.
Defined.

(** The last branch of the callback. *)
Lemma normalize_generic_json_helper (item : value) (t : jsstring) :
  (exists b, item = VBool b) \/ (exists n, item = VNum n)
  \/ (exists items, item = VArr items)
  \/ (exists fields, item = VObj fields
                     /\ truthy (lookup (u "text") fields) = false) ->
  stringify item = Some t ->
  normalize item = Return (VStr (firstn 1000 t)).
Proof.
  intros Hkind Hjson. rewrite <- substring_from_zero.
  destruct Hkind as [ [ b -> ] | [ [ n -> ] | [ [ items -> ] | [ fields [ -> Hfalsy ] ] ] ] ].
  - unfold normalize, normalize_with.
    change (str_eqb (typeof (VBool b)) (u "string")) with false.
    change (str_eqb (typeof (VBool b)) (u "object")) with false.
    cbv beta iota delta [obind]. now rewrite Hjson.
  - unfold normalize, normalize_with.
    change (str_eqb (typeof (VNum n)) (u "string")) with false.
    change (str_eqb (typeof (VNum n)) (u "object")) with false.
    cbv beta iota delta [obind]. now rewrite Hjson.
  - unfold normalize, normalize_with.
    change (str_eqb (typeof (VArr items)) (u "string")) with false.
    change (str_eqb (typeof (VArr items)) (u "object")) with true.
    cbv beta iota delta [obind prop_text truthy]. now rewrite Hjson.
  - unfold normalize.
    rewrite (normalize_with_falsy_text _ fields Hfalsy), Hjson.
    reflexivity.
Qed.


(** X12.  What is neither a string nor an object with a truthy [text]
    is embedded as the first 1000 code units of its JSON text: booleans,
    numbers, arrays, and objects whose [text] is absent or falsy. *)
Theorem normalize_generic_is_truncated_json (item : value) (t : jsstring) :
  (exists b, item = VBool b) \/ (exists n, item = VNum n)
  \/ (exists items, item = VArr items)
  \/ (exists fields, item = VObj fields
                     /\ truthy (lookup (u "text") fields) = false) ->
  stringify item = Some t ->
  normalize item = Return (VStr (firstn 1000 t)).
Proof.
  intros Hkind Hjson. now apply normalize_generic_json_helper.
Qed.

Lemma normalize_generic_is_truncated_json_witness :
  normalize segments
  = Return (VStr (firstn 1000
                    (u "{" ++ dquote ++ u "num_chunks" ++ dquote ++ u ":1,"
                     ++ dquote ++ u "chunks" ++ dquote ++ u ":["
                     ++ dquote ++ u "Hello world" ++ dquote ++ u "]}"))).
Proof.
  apply (@normalize_generic_is_truncated_json segments).
  - right. right. right. eexists. split; reflexivity.
  - reflexivity.
Defined.

(* ================================================================== *)
(** ** generateEmbeddings: what is not an array *)

(** X13.  A truthy argument that is not an object (a non-empty string, a
    number, [true]) has no [map]: [generateEmbeddings] throws the
    TypeError [inputs.map is not a function] before any effect, so a
    single text must be wrapped in an array. *)
Theorem generateEmbeddings_scalar_throws (w : world) (inputs : value) st :
  truthy inputs = true ->
  str_eqb (typeof inputs) (u "object") = false ->
  generateEmbeddings w inputs st
  = (Throw (TypeError (u "inputs.map is not a function")), st).
Proof.
  intros Ht Hkind.
  destruct inputs as [ | | [ | ] | [ | | | ] | [ | c s ] | | ];
    try discriminate; reflexivity.
Qed.

Lemma generateEmbeddings_scalar_throws_witness :
  generateEmbeddings online (VStr (u "Hello world")) start
  = (Throw (TypeError (u "inputs.map is not a function")), start).
Proof.
  apply (@generateEmbeddings_scalar_throws online (VStr (u "Hello world")) start);
    reflexivity.
Defined.

(* ================================================================== *)
(** ** Searching and replacing *)

Lemma getSubstitution_plain (matched before after t : jsstring) :
  plain t = true -> getSubstitution matched before after t = t.
Proof.
  induction t as [ | c t IH ]; [ reflexivity | ].
  cbn [plain forallb]. intros H. apply andb_prop in H as [Hc Ht].
  cbn [getSubstitution].
  destruct (c =? dollar)%N; [ discriminate | ].
  f_equal. now apply IH.
Qed.

Lemma startsWith_nil (s : jsstring) : startsWith s [] = true.
Proof. now destruct s. Qed.

Lemma startsWith_app_self (p t : jsstring) :
  startsWith (p ++ t) p = true.
Proof.
  induction p as [ | c p IH ]; [ apply startsWith_nil | ].
  cbn. now rewrite N.eqb_refl.
Qed.

Lemma startsWith_extend (d x p : jsstring) :
  startsWith d p = true -> startsWith (d ++ x) p = true.
Proof.
  revert p. induction d as [ | c d IH ]; intros [ | p0 p ] H;
    try apply startsWith_nil; try discriminate.
  cbn in *. apply andb_prop in H as [H0 H1].
  rewrite H0. now apply IH.
Qed.

Lemma startsWith_length (d p : jsstring) :
  startsWith d p = true -> length p <= length d.
Proof.
  revert p. induction d as [ | c d IH ]; intros [ | p0 p ] H; cbn in *;
    try lia; try discriminate.
  apply andb_prop in H as [_ H1]. apply IH in H1. lia.
Qed.

(** A match that fits inside [d] is a match of [d]. *)
Lemma startsWith_within (d x p : jsstring) :
  startsWith (d ++ x) p = true -> length p <= length d ->
  startsWith d p = true.
Proof.
  revert p. induction d as [ | c d IH ]; intros [ | p0 p ] H Hlen;
    try reflexivity; cbn in *; try lia.
  apply andb_prop in H as [H0 H1]. rewrite H0. apply IH; [ assumption | lia ].
Qed.

(** A match cannot run across a code unit that the pattern lacks. *)
Lemma startsWith_before (d : jsstring) (c : N) (x p : jsstring) :
  startsWith (d ++ c :: x) p = true ->
  forallb (fun y => negb (y =? c)%N) p = true ->
  startsWith d p = true.
Proof.
  revert p. induction d as [ | d0 d IH ]; intros [ | p0 p ] H Hp;
    try reflexivity; cbn in *.
  - apply andb_prop in H as [H0 _]. apply andb_prop in Hp as [Hp0 _].
    rewrite H0 in Hp0. discriminate.
  - apply andb_prop in H as [H0 H1]. apply andb_prop in Hp as [_ Hp1].
    rewrite H0. now apply IH.
Qed.

Lemma indexOf_cons (c : N) (s p : jsstring) :
  indexOf (c :: s) p
  = if startsWith (c :: s) p then Some 0 else option_map S (indexOf s p).
Proof. reflexivity. Qed.

Lemma indexOf_fits (s p : jsstring) (i : nat) :
  indexOf s p = Some i -> i + length p <= length s.
Proof.
  revert i. induction s as [ | c s IH ]; intros i H.
  - cbn in H. destruct p; [ | discriminate ].
    inversion H. cbn. lia.
  - rewrite indexOf_cons in H.
    destruct (startsWith (c :: s) p) eqn:Hs.
    + inversion H. apply startsWith_length in Hs. lia.
    + destruct (indexOf s p) as [ j | ]; [ | discriminate ].
      inversion H. specialize (IH j eq_refl). cbn. lia.
Qed.

(** The first occurrence in [d] is still the first one when text is
    appended. *)
Lemma indexOf_extend (d x p : jsstring) (i : nat) :
  indexOf d p = Some i -> indexOf (d ++ x) p = Some i.
Proof.
  revert i. induction d as [ | c d IH ]; intros i H.
  - cbn in H. destruct p; [ | discriminate ].
    inversion H. now destruct x.
  - rewrite indexOf_cons in H. rewrite <- app_comm_cons, indexOf_cons.
    destruct (startsWith (c :: d) p) eqn:Hs.
    + rewrite app_comm_cons, (startsWith_extend _ x _ Hs). assumption.
    + destruct (indexOf d p) as [ j | ] eqn:Hj; [ | discriminate ].
      destruct (startsWith (c :: d ++ x) p) eqn:Hx.
      * apply indexOf_fits in Hj.
        rewrite app_comm_cons in Hx.
        apply startsWith_within in Hx; [ congruence | cbn; lia ].
      * now rewrite (IH j eq_refl).
Qed.

(** Code units other than the first one of the pattern are skipped. *)
Lemma indexOf_skip (a s : jsstring) (p0 : N) (p : jsstring) :
  forallb (fun c => negb (p0 =? c)%N) a = true ->
  indexOf (a ++ s) (p0 :: p)
  = option_map (Nat.add (length a)) (indexOf s (p0 :: p)).
Proof.
  induction a as [ | c a IH ]; intros H.
  - cbn [app length]. now destruct (indexOf s (p0 :: p)).
  - cbn [forallb] in H. apply andb_prop in H as [Hc Ha].
    rewrite <- app_comm_cons, indexOf_cons.
    cbn [startsWith]. destruct (p0 =? c)%N; [ discriminate | ].
    cbn [andb]. rewrite (IH Ha).
    now destruct (indexOf s (p0 :: p)).
Qed.

(** A text without the pattern, followed by a code unit that the
    pattern lacks, is skipped as a whole. *)
Lemma indexOf_skip_text (d : jsstring) (c : N) (x p : jsstring) :
  includes d p = false ->
  forallb (fun y => negb (y =? c)%N) p = true ->
  indexOf (d ++ c :: x) p
  = option_map (Nat.add (length d)) (indexOf (c :: x) p).
Proof.
  intros Hd Hp. induction d as [ | d0 d IH ].
  - cbn [app length]. now destruct (indexOf (c :: x) p).
  - unfold includes in Hd. rewrite indexOf_cons in Hd.
    destruct (startsWith (d0 :: d) p) eqn:Hs; [ discriminate | ].
    destruct (indexOf d p) eqn:Hi; [ discriminate | ].
    rewrite <- app_comm_cons, indexOf_cons.
    destruct (startsWith (d0 :: d ++ c :: x) p) eqn:Hx.
    + rewrite app_comm_cons in Hx.
      apply startsWith_before in Hx; [ congruence | assumption ].
    + rewrite IH by (unfold includes; now rewrite Hi).
      now destruct (indexOf (c :: x) p).
Qed.

Lemma firstn_past (A : Type) (a b : list A) (n : nat) :
  firstn (length a + n) (a ++ b) = a ++ firstn n b.
Proof.
  rewrite firstn_app, firstn_all2 by lia.
  now replace (length a + n - length a) with n by lia.
Qed.

Lemma skipn_past (A : Type) (a b : list A) (n : nat) :
  skipn (length a + n) (a ++ b) = skipn n b.
Proof.
  rewrite skipn_app, skipn_all2 by lia.
  now replace (length a + n - length a) with n by lia.
Qed.

(** The template is its fixed lines around the two placeholders. *)
Lemma SYSTEM_PROMPT_layout :
  SYSTEM_PROMPT
  = prompt_head ++ u "{document}" ++ prompt_middle ++ u "{question}" ++ prompt_tail.
Proof. vm_compute. reflexivity. Qed.

(** The first [replace]: the document slot of the template, filled with
    a text that has no [$] in it. *)
Lemma replace_document (doc : jsstring) :
  plain doc = true ->
  replace SYSTEM_PROMPT (u "{document}") doc
  = prompt_head ++ doc ++ prompt_middle ++ u "{question}" ++ prompt_tail.
Proof.
  intros Hplain.
  erewrite replace_found by (vm_compute; reflexivity).
  rewrite (getSubstitution_plain _ _ _ doc Hplain).
  match goal with
  | |- firstn ?i ?s ++ _ ++ skipn ?k ?s = _ =>
      replace (firstn i s) with prompt_head by (vm_compute; reflexivity);
      replace (skipn k s) with (prompt_middle ++ u "{question}" ++ prompt_tail)
        by (vm_compute; reflexivity)
  end.
  reflexivity.
Qed.

Lemma startsWith_split (s p : jsstring) :
  startsWith s p = true -> s = p ++ skipn (length p) s.
Proof.
  revert s. induction p as [ | p0 p IH ]; intros [ | c s ] H;
    try reflexivity; try discriminate.
  cbn in H. apply andb_prop in H as [H0 H1].
  apply N.eqb_eq in H0. subst c. cbn. f_equal. now apply IH.
Qed.

(** Where [indexOf] answers, the pattern is. *)
Lemma indexOf_split (s p : jsstring) (i : nat) :
  indexOf s p = Some i ->
  s = firstn i s ++ p ++ skipn (i + length p) s.
Proof.
  revert i. induction s as [ | c s IH ]; intros i H.
  - cbn in H. destruct p; [ | discriminate ]. now inversion H.
  - rewrite indexOf_cons in H.
    destruct (startsWith (c :: s) p) eqn:Hs.
    + inversion H. cbn [firstn app Nat.add]. now apply startsWith_split.
    + destruct (indexOf s p) as [ j | ]; [ | discriminate ].
      inversion H. cbn [firstn skipn Nat.add].
      rewrite <- app_comm_cons. f_equal. now apply IH.
Qed.

(** [replace] at a known place. *)
Lemma replace_here (pre p post r : jsstring) :
  indexOf (pre ++ p ++ post) p = Some (length pre) ->
  replace (pre ++ p ++ post) p r
  = pre ++ getSubstitution p pre post r ++ post.
Proof.
  intros H. rewrite (replace_found _ _ r H).
  assert (Hpre : firstn (length pre) (pre ++ p ++ post) = pre).
  { rewrite <- (Nat.add_0_r (length pre)), firstn_past.
    cbn [firstn]. apply app_nil_r. }
  assert (Hpost : skipn (length pre + length p) (pre ++ p ++ post) = post).
  { rewrite skipn_past.
    rewrite <- (Nat.add_0_r (length p)), skipn_past. reflexivity. }
  now rewrite Hpre, Hpost.
Qed.

(** With a document text that does not contain it, the first
    [{question}] after the first [replace] is the one of the template. *)
Lemma indexOf_question_slot (doc : jsstring) :
  includes doc (u "{question}") = false ->
  indexOf ((prompt_head ++ doc ++ prompt_middle) ++ u "{question}" ++ prompt_tail)
    (u "{question}")
  = Some (length (prompt_head ++ doc ++ prompt_middle)).
Proof.
  intros Hdoc.
  rewrite <- !app_assoc.
  change (u "{question}") with (123%N :: u "question}") at 2.
  rewrite indexOf_skip by (vm_compute; reflexivity).
  change prompt_middle with (10%N :: u "---*QUESTION:* ").
  rewrite <- app_comm_cons.
  change (123%N :: u "question}") with (u "{question}").
  rewrite indexOf_skip_text by (assumption || (vm_compute; reflexivity)).
  rewrite app_comm_cons.
  change (u "{question}") with (123%N :: u "question}") at 2.
  rewrite indexOf_skip by (vm_compute; reflexivity).
  change (123%N :: u "question}") with (u "{question}").
  assert (Hfound : indexOf (u "{question}" ++ prompt_tail) (u "{question}") = Some 0).
  { change (u "{question}" ++ prompt_tail)
      with (123%N :: (u "question}" ++ prompt_tail)).
    rewrite indexOf_cons.
    change (123%N :: (u "question}" ++ prompt_tail))
      with (u "{question}" ++ prompt_tail).
    now rewrite startsWith_app_self. }
  rewrite Hfound. cbn [option_map].
  rewrite !length_app. cbn [length]. f_equal; lia.
Qed.

(* ================================================================== *)
(** ** The prompt *)

(** X14.  When the serialized document contains neither a [$] nor the
    text [{question}], and the question contains no [$], the prompt is
    the template with its two placeholders replaced, word for word, by
    the serialized document and by the question. *)
Theorem formattedPrompt_fills_both_slots (document question : value) :
  plain (document_slot document) = true ->
  includes (document_slot document) (u "{question}") = false ->
  plain (toString question) = true ->
  formattedPrompt document question
  = prompt_head ++ document_slot document
    ++ prompt_middle ++ toString question ++ prompt_tail.
Proof.
  intros Hdoc Hfree Hquestion.
  unfold formattedPrompt. fold (document_slot document).
  rewrite (replace_document _ Hdoc).
  replace (prompt_head ++ document_slot document ++ prompt_middle
           ++ u "{question}" ++ prompt_tail)
    with ((prompt_head ++ document_slot document ++ prompt_middle)
          ++ u "{question}" ++ prompt_tail)
    by now rewrite <- !app_assoc.
  rewrite replace_here by now apply indexOf_question_slot.
  rewrite (getSubstitution_plain _ _ _ _ Hquestion).
  now rewrite <- !app_assoc.
Qed.

Lemma formattedPrompt_fills_both_slots_witness :
  formattedPrompt segments (VStr (u "What does it say?"))
  = prompt_head ++ document_slot segments
    ++ prompt_middle ++ toString (VStr (u "What does it say?")) ++ prompt_tail.
Proof.
  apply (@formattedPrompt_fills_both_slots segments (VStr (u "What does it say?")));
    reflexivity.
Defined.

(** X15.  When the serialized document itself contains [{question}]
    (and no [$]), the second [replace] finds that occurrence first: the
    question is written into the document, and the question line of the
    template still reads [{question}]. *)
Theorem formattedPrompt_document_takes_question
    (document question : value) (j : nat) :
  plain (document_slot document) = true ->
  indexOf (document_slot document) (u "{question}") = Some j ->
  plain (toString question) = true ->
  formattedPrompt document question
  = prompt_head
    ++ firstn j (document_slot document) ++ toString question
    ++ skipn (j + 10) (document_slot document)
    ++ prompt_middle ++ u "{question}" ++ prompt_tail.
Proof.
  intros Hdoc Hj Hquestion.
  unfold formattedPrompt. fold (document_slot document).
  rewrite (replace_document _ Hdoc).
  set (doc := document_slot document) in *.
  set (rest := prompt_middle ++ u "{question}" ++ prompt_tail).
  pose proof (indexOf_split _ _ Hj) as Hsplit.
  change (length (u "{question}")) with 10 in Hsplit.
  assert (Hat : indexOf
                  ((prompt_head ++ firstn j doc) ++ u "{question}"
                   ++ skipn (j + 10) doc ++ rest)
                  (u "{question}")
                = Some (length (prompt_head ++ firstn j doc))).
  { rewrite <- app_assoc.
    change (u "{question}") with (123%N :: u "question}") at 2.
    rewrite indexOf_skip by (vm_compute; reflexivity).
    change (123%N :: u "question}") with (u "{question}").
    replace (firstn j doc ++ u "{question}" ++ skipn (j + 10) doc ++ rest)
      with (doc ++ rest)
      by (rewrite Hsplit at 1; now rewrite <- !app_assoc).
    rewrite (indexOf_extend _ rest _ Hj). cbn [option_map].
    rewrite length_app, length_firstn.
    apply indexOf_fits in Hj. f_equal. lia. }
  replace (prompt_head ++ doc ++ rest)
    with ((prompt_head ++ firstn j doc) ++ u "{question}"
          ++ skipn (j + 10) doc ++ rest)
    by (rewrite Hsplit at 3; now rewrite <- !app_assoc).
  rewrite (replace_here _ _ _ _ Hat).
  rewrite (getSubstitution_plain _ _ _ _ Hquestion).
  now rewrite <- !app_assoc.
Qed.

Lemma formattedPrompt_document_takes_question_witness :
  let document := VStr (u "Use {question} as a placeholder.") in
  let question := VStr (u "What does it say?") in
  formattedPrompt document question
  = prompt_head
    ++ firstn 5 (document_slot document) ++ toString question
    ++ skipn (5 + 10) (document_slot document)
    ++ prompt_middle ++ u "{question}" ++ prompt_tail.
Proof.
  intros document question.
  apply (@formattedPrompt_document_takes_question document question 5);
    reflexivity.
Defined.

(* ================================================================== *)
(** ** The terminal *)

Lemma paused_after_prompt (prompt : jsstring) (v : value) st :
  paused (after_prompt prompt st v) = if truthy v then paused st else true.
Proof. unfold after_prompt. now destruct (truthy v). Qed.

Lemma fetch_outcome_paused (w : world) (url : jsstring) st :
  paused (snd (fetch_outcome w url st)) = paused st.
Proof.
  unfold fetch_outcome.
  destruct (startsWith url (u "http")); [ | reflexivity ].
  destruct (import_node_fetch w); [ | reflexivity ].
  destruct (let! r := fetch w (reader_request w url) in decode w r);
    reflexivity.
Qed.

Lemma segment_outcome_paused (w : world) (text : jsstring) st :
  paused (snd (segment_outcome w text st)) = paused st.
Proof.
  unfold segment_outcome.
  destruct (truthy (VStr (trim text))); [ | reflexivity ].
  destruct (import_node_fetch w); [ | reflexivity ].
  destruct (let! r := fetch w (segment_request w text) in json r);
    reflexivity.
Qed.

(** [fetchContent] pauses [process.stdin] exactly when it has asked for
    the URL itself. *)
Lemma fetchContent_paused (w : world) (url : jsstring) st :
  paused (snd (fetchContent w (VStr url) st))
  = if truthy (VStr url) then paused st else true.
Proof.
  now rewrite fetchContent_known, fetch_outcome_paused, paused_after_prompt.
Qed.

Lemma segmentText_paused (w : world) (content : value) st :
  paused (snd (segmentText w content st))
  = if truthy content then paused st else true.
Proof.
  now rewrite segmentText_known, segment_outcome_paused, paused_after_prompt.
Qed.

Lemma generateEmbeddings_paused (w : world) (inputs : value) st :
  paused (snd (generateEmbeddings w inputs st)) = paused st.
Proof.
  destruct st as [ tr n p ].
  unfold generateEmbeddings.
  set (inputs' := match inputs with VUndefined => VArr [] | _ => inputs end).
  cbv beta iota
      delta [bind lift ret tryCatch log emit do_post trace asked paused snd].
  destruct (truthy inputs'); cbv beta iota delta [negb]; [ | reflexivity ].
  destruct (prop_length inputs'); [ | reflexivity ].
  destruct (is_zero _); [ reflexivity | ].
  destruct (array_map "inputs" normalize inputs') as [ strs | e ];
    [ | reflexivity ].
  destruct (axios_post w embeddings_url (embedding_request strs)
              [authorization w; content_type_json]); reflexivity.
Qed.

(** With a URL entered at the prompt of [main], nothing has paused
    [process.stdin] when [main] comes to its second question. *)
Lemma stdin_flows_at_step4
    (w : world) (st st2 st3 st4 : state)
    (content segmented embeddings : value) :
  typed w (asked st) <> [] ->
  fetchContent w (VStr (typed w (asked st))) (at_stage1 st)
    = (Return content, st2) ->
  truthy content = true ->
  segmentText w content (at_stage2 st2) = (Return segmented, st3) ->
  generateEmbeddings w (VArr [segmented]) (at_stage3 st3)
    = (Return embeddings, st4) ->
  paused st4 = false.
Proof.
  intros Hurl Hfetch Hcontent Hsegment Hembed.
  pose proof (fetchContent_paused w (typed w (asked st)) (at_stage1 st)) as H2.
  rewrite Hfetch in H2. cbn [snd] in H2.
  destruct (typed w (asked st)) as [ | c url ] eqn:Hline; [ congruence | ].
  cbn [truthy] in H2.
  pose proof (segmentText_paused w content (at_stage2 st2)) as H3.
  rewrite Hsegment, Hcontent in H3. cbn [snd] in H3.
  pose proof (generateEmbeddings_paused w (VArr [segmented]) (at_stage3 st3)) as H4.
  rewrite Hembed in H4. cbn [snd] in H4.
  rewrite H4. unfold at_stage3. cbn [said paused].
  rewrite H3. unfold at_stage2. cbn [said paused].
  rewrite H2. reflexivity.
Qed.

(** After an empty line at the prompt of [main], [fetchContent] has
    asked itself and left [process.stdin] paused. *)
Lemma stdin_paused_at_step4
    (w : world) (st st2 st3 st4 : state)
    (content segmented embeddings : value) :
  typed w (asked st) = [] ->
  fetchContent w (VStr (typed w (asked st))) (at_stage1 st)
    = (Return content, st2) ->
  truthy content = true ->
  segmentText w content (at_stage2 st2) = (Return segmented, st3) ->
  generateEmbeddings w (VArr [segmented]) (at_stage3 st3)
    = (Return embeddings, st4) ->
  paused st4 = true.
Proof.
  intros Hurl Hfetch Hcontent Hsegment Hembed.
  pose proof (fetchContent_paused w (typed w (asked st)) (at_stage1 st)) as H2.
  rewrite Hfetch, Hurl in H2. cbn [snd truthy] in H2.
  pose proof (segmentText_paused w content (at_stage2 st2)) as H3.
  rewrite Hsegment, Hcontent in H3. cbn [snd] in H3.
  pose proof (generateEmbeddings_paused w (VArr [segmented]) (at_stage3 st3)) as H4.
  rewrite Hembed in H4. cbn [snd] in H4.
  rewrite H4. unfold at_stage3. cbn [said paused].
  rewrite H3. unfold at_stage2. cbn [said paused].
  exact H2.
Qed.

(* ================================================================== *)
(** ** main, stage by stage *)

(** C2, as the code has it.  A [null] from the embedding stage does not
    stop [main].  In a run in which the URL was entered at the prompt
    of [main] (so that its second question is answered),
    [generateEmbeddings] returns [null] and [generateGeminiResponse]
    returns an answer that is truthy (not [null], not the empty text),
    [main] prints the answer and [Workflow completed successfully!],
    closes its interface and returns. *)
Theorem main_answers_without_embeddings
    (w : world) (st st2 st3 st4 st5 : state)
    (content segmented answer : value) :
  typed w (asked st) <> [] ->
  fetchContent w (VStr (typed w (asked st))) (at_stage1 st)
    = (Return content, st2) ->
  truthy content = true ->
  segmentText w content (at_stage2 st2) = (Return segmented, st3) ->
  truthy segmented = true ->
  generateEmbeddings w (VArr [segmented]) (at_stage3 st3) = (Return VNull, st4) ->
  generateGeminiResponse w segmented (VStr (typed w (asked st4))) (at_stage4 st4)
    = (Return answer, st5) ->
  truthy answer = true ->
  main w st
  = (Return VUndefined,
     closed
       (said (nl ++ u "Workflow completed successfully!")
          (shown answer
             (said (nl ++ u "--- Gemini's Response ---") st5)))).
Proof.
  intros Hurl Hfetch Hcontent Hsegment Hsegmented Hembed Hanswer Htruthy.
  rewrite main_unfold, Hfetch, Hcontent, Hsegment, Hsegmented, Hembed.
  rewrite (stdin_flows_at_step4 w st Hurl Hfetch Hcontent Hsegment Hembed).
  now rewrite Hanswer, Htruthy.
Qed.

Lemma main_answers_without_embeddings_witness :
  let st2 := snd (fetchContent embedder_down (VStr (u "https://example.com"))
                    (at_stage1 start)) in
  let st3 := snd (segmentText embedder_down segments (at_stage2 st2)) in
  let st4 := snd (generateEmbeddings embedder_down (VArr [segments])
                    (at_stage3 st3)) in
  let st5 := snd (generateGeminiResponse embedder_down segments
                    (VStr (u "https://example.com")) (at_stage4 st4)) in
  main embedder_down start
  = (Return VUndefined,
     closed
       (said (nl ++ u "Workflow completed successfully!")
          (shown (VStr (u "It says hello."))
             (said (nl ++ u "--- Gemini's Response ---") st5)))).
Proof.
  intros st2 st3 st4 st5.
  apply (@main_answers_without_embeddings
           embedder_down start st2 st3 st4 st5
           segments segments (VStr (u "It says hello."))).
  - discriminate.
  - reflexivity.
  - reflexivity.
  - reflexivity.
  - reflexivity.
  - reflexivity.
  - reflexivity.
  - reflexivity.
Defined.

(** C2 as stated fails when the model answers with the empty text: the
    embedding stage has returned [null], [generateGeminiResponse] has
    returned normally, with a string and no error caught, and [main]
    prints neither the answer nor the success line but [Workflow
    encountered an error during AI response generation.] *)
Lemma main_reports_an_empty_answer_as_an_error :
  let w := laconic in
  let st2 := snd (fetchContent w (VStr (u "https://example.com")) (at_stage1 start)) in
  let st3 := snd (segmentText w segments (at_stage2 st2)) in
  let st4 := snd (generateEmbeddings w (VArr [segments]) (at_stage3 st3)) in
  let st5 := snd (generateGeminiResponse w segments
                    (VStr (u "https://example.com")) (at_stage4 st4)) in
  generateEmbeddings w (VArr [segments]) (at_stage3 st3) = (Return VNull, st4)
  /\ generateGeminiResponse w segments (VStr (u "https://example.com")) (at_stage4 st4)
     = (Return (VStr []), st5)
  /\ trace st5
     = trace (at_stage4 st4)
       ++ [GenerateContent (formattedPrompt segments (VStr (u "https://example.com")))]
  /\ main w start
     = (Return VUndefined,
        closed
          (said (nl ++ u "Workflow encountered an error during AI response generation.")
             st5)).
Proof. repeat split. Qed.

(** X16.  When [fetchContent] hands [main] a falsy content, [main]
    logs [Content fetching failed. Exiting.], closes its interface and
    returns; nothing else
    follows the fetch.  The content need not be [null]: a page that was
    fetched but is empty is treated as a failed fetch. *)
Theorem main_stops_when_fetch_is_falsy
    (w : world) (st st2 : state) (content : value) :
  fetchContent w (VStr (typed w (asked st))) (at_stage1 st)
    = (Return content, st2) ->
  truthy content = false ->
  main w st
  = (Return VUndefined, closed (said (u "Content fetching failed. Exiting.") st2)).
Proof.
  intros Hfetch Hfalsy.
  now rewrite main_unfold, Hfetch, Hfalsy.
Qed.

Lemma main_stops_when_fetch_is_falsy_witness :
  let w := serving empty_page in
  let st2 := snd (fetchContent w (VStr (u "https://example.com")) (at_stage1 start)) in
  main w start
  = (Return VUndefined, closed (said (u "Content fetching failed. Exiting.") st2)).
Proof.
  intros w st2.
  apply (@main_stops_when_fetch_is_falsy w start st2 (VStr [])); reflexivity.
Defined.

(** X17.  [main] never looks at what [generateEmbeddings] returned.  In
    a run in which the URL was entered at the prompt of [main] (so that
    its second question is answered), whatever value the embedding
    stage returns, [main] goes on to the question and the call of the
    model, and ends with the answer and [Workflow completed
    successfully!] when the answer is truthy, with [Workflow encountered
    an error during AI response generation.] when it is [null] or the
    empty string.  Either way [main] returns normally. *)
Theorem main_ignores_embeddings
    (w : world) (st st2 st3 st4 st5 : state)
    (content segmented embeddings answer : value) :
  typed w (asked st) <> [] ->
  fetchContent w (VStr (typed w (asked st))) (at_stage1 st)
    = (Return content, st2) ->
  truthy content = true ->
  segmentText w content (at_stage2 st2) = (Return segmented, st3) ->
  truthy segmented = true ->
  generateEmbeddings w (VArr [segmented]) (at_stage3 st3)
    = (Return embeddings, st4) ->
  generateGeminiResponse w segmented (VStr (typed w (asked st4))) (at_stage4 st4)
    = (Return answer, st5) ->
  main w st
  = (Return VUndefined,
     closed
       (if truthy answer then
          said (nl ++ u "Workflow completed successfully!")
            (shown answer (said (nl ++ u "--- Gemini's Response ---") st5))
        else
          said (nl ++ u "Workflow encountered an error during AI response generation.") st5)).
Proof.
  intros Hurl Hfetch Hcontent Hsegment Hsegmented Hembed Hanswer.
  rewrite main_unfold, Hfetch, Hcontent, Hsegment, Hsegmented, Hembed.
  rewrite (stdin_flows_at_step4 w st Hurl Hfetch Hcontent Hsegment Hembed).
  rewrite Hanswer. now destruct (truthy answer).
Qed.

Lemma main_ignores_embeddings_witness :
  let w := mute_model in
  let st2 := snd (fetchContent w (VStr (u "https://example.com")) (at_stage1 start)) in
  let st3 := snd (segmentText w segments (at_stage2 st2)) in
  let st4 := snd (generateEmbeddings w (VArr [segments]) (at_stage3 st3)) in
  let st5 := snd (generateGeminiResponse w segments
                    (VStr (u "https://example.com")) (at_stage4 st4)) in
  main w start
  = (Return VUndefined,
     closed
       (if truthy (VStr []) then
          said (nl ++ u "Workflow completed successfully!")
            (shown (VStr []) (said (nl ++ u "--- Gemini's Response ---") st5))
        else
          said (nl ++ u "Workflow encountered an error during AI response generation.") st5)).
Proof.
  intros w st2 st3 st4 st5.
  apply (@main_ignores_embeddings w start st2 st3 st4 st5
           segments segments (VObj [(u "data", VArr [])]) (VStr []));
    try reflexivity.
  discriminate.
Defined.

(** X18.  An empty line at the URL prompt of [main] is not the end:
    [fetchContent] asks once more with the same prompt.  When the second
    line does not start with [http] either, the run ends with [Invalid
    URL.] and [Content fetching failed. Exiting.], two lines read and
    nothing sent. *)
Theorem main_asks_twice_for_the_url (w : world) st :
  typed w (asked st) = [] ->
  startsWith (typed w (S (asked st))) (u "http") = false ->
  main w st
  = (Return VUndefined,
     said (u "Content fetching failed. Exiting.")
       (said (u "Invalid URL.")
          (prompted (u "Enter the URL to fetch content: ") (at_stage1 st))))
  /\ asked (snd (main w st)) = S (S (asked st))
  /\ network_calls (trace (snd (main w st))) = network_calls (trace st).
Proof.
  intros Hempty Hbad.
  assert (Hmain :
    main w st
    = (Return VUndefined,
       said (u "Content fetching failed. Exiting.")
         (said (u "Invalid URL.")
            (prompted (u "Enter the URL to fetch content: ") (at_stage1 st))))).
  { rewrite main_unfold, Hempty.
    rewrite fetchContent_asks_when_empty by exact Hbad.
    reflexivity. }
  rewrite Hmain. repeat split.
  cbn [snd]. rewrite !network_calls_said, network_calls_prompted.
  unfold at_stage1. cbn [answered trace].
  rewrite network_calls_app, network_calls_said.
  cbn. apply app_nil_r.
Qed.

Lemma main_asks_twice_for_the_url_witness :
  main silent start
  = (Return VUndefined,
     said (u "Content fetching failed. Exiting.")
       (said (u "Invalid URL.")
          (prompted (u "Enter the URL to fetch content: ") (at_stage1 start))))
  /\ asked (snd (main silent start)) = S (S (asked start))
  /\ network_calls (trace (snd (main silent start))) = network_calls (trace start).
Proof.
  apply (@main_asks_twice_for_the_url silent start); reflexivity.
Defined.

(** X25.  After an empty line at the prompt of [main], [fetchContent]
    has asked for the URL on an interface of its own and closed it,
    which leaves [process.stdin] paused.  If the stages then succeed,
    [main] writes its second question and waits for an answer that never
    arrives: the model is not called, nothing is logged any more, and
    [main] does not return. *)
Theorem main_waits_for_ever_after_an_empty_line
    (w : world) (st st2 st3 st4 : state)
    (content segmented embeddings : value) :
  typed w (asked st) = [] ->
  fetchContent w (VStr (typed w (asked st))) (at_stage1 st)
    = (Return content, st2) ->
  truthy content = true ->
  segmentText w content (at_stage2 st2) = (Return segmented, st3) ->
  truthy segmented = true ->
  generateEmbeddings w (VArr [segmented]) (at_stage3 st3)
    = (Return embeddings, st4) ->
  main w st
  = (Unsettled,
     waiting (u "Ask a question about the fetched content: ")
       (said (nl ++ u "--- Step 4: Generating AI Response ---") st4))
  /\ network_calls (trace (snd (main w st))) = network_calls (trace st4).
Proof.
  intros Hurl Hfetch Hcontent Hsegment Hsegmented Hembed.
  assert (Hmain :
    main w st
    = (Unsettled,
       waiting (u "Ask a question about the fetched content: ")
         (said (nl ++ u "--- Step 4: Generating AI Response ---") st4))).
  { rewrite main_unfold, Hfetch, Hcontent, Hsegment, Hsegmented, Hembed.
    now rewrite (stdin_paused_at_step4 w st Hurl Hfetch Hcontent Hsegment Hembed). }
  rewrite Hmain. split; [ reflexivity | ].
  cbn [snd waiting trace]. rewrite network_calls_app, network_calls_said.
  cbn. apply app_nil_r.
Qed.

Lemma main_waits_for_ever_after_an_empty_line_witness :
  let w := hesitant in
  let st2 := snd (fetchContent w (VStr []) (at_stage1 start)) in
  let st3 := snd (segmentText w segments (at_stage2 st2)) in
  let st4 := snd (generateEmbeddings w (VArr [segments]) (at_stage3 st3)) in
  main w start
  = (Unsettled,
     waiting (u "Ask a question about the fetched content: ")
       (said (nl ++ u "--- Step 4: Generating AI Response ---") st4))
  /\ network_calls (trace (snd (main w start))) = network_calls (trace st4).
Proof.
  intros w st2 st3 st4.
  apply (@main_waits_for_ever_after_an_empty_line w start st2 st3 st4
           segments segments (VObj [(u "data", VArr [])]));
    reflexivity.
Defined.

(* ================================================================== *)
(** ** Elements without a normal form *)

Lemma generateEmbeddings_throws (w : world) (items : list value) (e : error) st :
  items <> [] ->
  map_items normalize items = Throw e ->
  generateEmbeddings w (VArr items) st = (Throw e, st).
Proof.
  intros Hne Hmap.
  destruct items as [ | item items' ]; [ congruence | ].
  unfold generateEmbeddings.
  change (negb (truthy (VArr (item :: items')))) with false. cbv iota.
  cbv beta iota delta [bind lift ret prop_length].
  change (is_zero _) with false. cbv iota.
  unfold array_map. now rewrite Hmap.
Qed.

(** The only truthy elements without a normal form are the objects
    whose [text] is truthy and not a string. *)
Lemma normalize_truthy_error (item : value) (e : error) :
  normalize item = Throw e ->
  truthy item = true ->
  e = TypeError (u "item.text.substring is not a function").
Proof.
  intros Hthrow Htruthy.
  destruct item as [ | | b | n | s | items | fields ]; try discriminate.
  - destruct (@stringify_total (VBool b)) as [ t Ht ]; [ discriminate | ].
    rewrite (@normalize_generic_json_helper (VBool b) t) in Hthrow;
      [ discriminate | now left; exists b | assumption ].
  - destruct (@stringify_total (VNum n)) as [ t Ht ]; [ discriminate | ].
    rewrite (@normalize_generic_json_helper (VNum n) t) in Hthrow;
      [ discriminate | right; left; now exists n | assumption ].
  - destruct (truthy (lookup (u "text") fields)) eqn:Htext.
    + unfold normalize, normalize_with in Hthrow.
      change (str_eqb (typeof (VObj fields)) (u "string")) with false in Hthrow.
      change (str_eqb (typeof (VObj fields)) (u "object")) with true in Hthrow.
      cbv beta iota delta [obind prop_text] in Hthrow.
      rewrite Htext in Hthrow.
      destruct (lookup (u "text") fields); try discriminate;
        cbv beta iota delta [string_receiver] in Hthrow;
        inversion Hthrow; reflexivity.
    + destruct (@stringify_total (VObj fields)) as [ t Ht ]; [ discriminate | ].
      rewrite (@normalize_generic_json_helper (VObj fields) t) in Hthrow;
        [ discriminate
        | right; right; right; exists fields; now split
        | assumption ].
Qed.

Lemma map_items_raises (A B : Type) (f : A -> outcome B) (l : list A) :
  existsb (fun x => raises (f x)) l = true ->
  exists e, map_items f l = Throw e.
Proof.
  induction l as [ | x l IH ]; cbn; intros H; [ discriminate | ].
  destruct (f x) as [ y | e ]; cbn in *.
  - destruct (IH H) as [ e He ]. exists e. now rewrite He.
  - now exists e.
Qed.

(** C9 at [generateEmbeddings(['Hello world', {text: 5}])].  When some
    element of the array has no normal form ([null], [undefined], an
    object whose [text] is truthy and not a string), the callback of
    [inputs.map] throws before the request is put together, and outside
    the [try]: [generateEmbeddings] throws with the state as it found
    it.  No request of N entries is built, nothing is logged, nothing
    is sent. *)
Theorem generateEmbeddings_builds_no_request (w : world) (items : list value) st :
  existsb (fun item => raises (normalize item)) items = true ->
  exists e,
    generateEmbeddings w (VArr items) st = (Throw e, st)
    /\ network_calls (trace (snd (generateEmbeddings w (VArr items) st)))
       = network_calls (trace st).
Proof.
  intros Hsome.
  destruct (map_items_raises normalize items Hsome) as [ e He ].
  assert (Hne : items <> []) by (intros ->; discriminate).
  exists e. rewrite (generateEmbeddings_throws w st Hne He). now split.
Qed.

Lemma generateEmbeddings_builds_no_request_witness :
  let items := [VStr (u "Hello world"); VObj [(u "text", VNum (Finite (u "5")))]] in
  exists e,
    generateEmbeddings online (VArr items) start = (Throw e, start)
    /\ network_calls (trace (snd (generateEmbeddings online (VArr items) start)))
       = network_calls (trace start).
Proof.
  intro items.
  apply (@generateEmbeddings_builds_no_request online items start).
  reflexivity.
Defined.

(** X19.  Called as [main] calls it, on the one-element array made of a
    truthy segmentation result, [generateEmbeddings] throws only when
    that result is an object whose [text] is truthy and not a string.
    The exception is then the TypeError [item.text.substring is not a
    function], and it is thrown before anything is logged or sent. *)
Theorem generateEmbeddings_throws_only_for_text_that_is_no_string
    (w : world) (segmented : value) (e : error) (st st' : state) :
  truthy segmented = true ->
  generateEmbeddings w (VArr [segmented]) st = (Throw e, st') ->
  e = TypeError (u "item.text.substring is not a function")
  /\ st' = st
  /\ exists fields,
       segmented = VObj fields
       /\ truthy (lookup (u "text") fields) = true
       /\ forall s, lookup (u "text") fields <> VStr s.
Proof.
  intros Htruthy Hthrow.
  destruct (normalize segmented) as [ t | e' ] eqn:Hn.
  - rewrite (@generateEmbeddings_posts w [segmented] [t] st) in Hthrow;
      [ | discriminate | cbn; now rewrite Hn ].
    cbv zeta in Hthrow.
    destruct (axios_post w embeddings_url (embedding_request [t])
                [authorization w; content_type_json]); discriminate.
  - rewrite (@generateEmbeddings_throws w [segmented] e' st) in Hthrow;
      [ | discriminate | cbn; now rewrite Hn ].
    inversion Hthrow; subst e' st'.
    split; [ now apply (normalize_truthy_error segmented) | ].
    split; [ reflexivity | ].
    assert (Hraises : raises (normalize segmented) = true) by now rewrite Hn.
    apply normalize_raises_iff in Hraises.
    destruct Hraises as [ -> | [ -> | Hobject ] ]; try discriminate.
    exact Hobject.
Qed.

Lemma generateEmbeddings_throws_only_for_text_that_is_no_string_witness :
  let segmented := VObj [(u "text", VNum (Finite (u "5")))] in
  TypeError (u "item.text.substring is not a function")
  = TypeError (u "item.text.substring is not a function")
  /\ start = start
  /\ exists fields,
       segmented = VObj fields
       /\ truthy (lookup (u "text") fields) = true
       /\ forall s, lookup (u "text") fields <> VStr s.
Proof.
  intro segmented.
  apply (@generateEmbeddings_throws_only_for_text_that_is_no_string
           online segmented
           (TypeError (u "item.text.substring is not a function")) start start);
    reflexivity.
Defined.

(* ================================================================== *)
(** ** The order of the requests *)

Lemma services_app (t1 t2 : list event) :
  services (t1 ++ t2) = services t1 ++ services t2.
Proof. apply flat_map_app. Qed.

Lemma services_said (line : jsstring) st :
  services (trace (said line st)) = services (trace st).
Proof. cbn. rewrite services_app. cbn. apply app_nil_r. Qed.

Lemma services_shown (v : value) st :
  services (trace (shown v st)) = services (trace st).
Proof. cbn. rewrite services_app. cbn. apply app_nil_r. Qed.

Lemma services_prompted (prompt : jsstring) st :
  services (trace (prompted prompt st)) = services (trace st).
Proof. cbn. rewrite services_app. cbn. apply app_nil_r. Qed.

Lemma services_after_prompt (prompt : jsstring) (v : value) st :
  services (trace (after_prompt prompt st v)) = services (trace st).
Proof.
  unfold after_prompt. destruct (truthy v); [ reflexivity | ].
  apply services_prompted.
Qed.

Lemma services_reader (w : world) (url : jsstring) st :
  services (trace (fetched (reader_request w url) st))
  = services (trace st) ++ [Reader].
Proof.
  cbn [fetched trace]. rewrite services_app. f_equal.
  cbn [services flat_map service_of reader_request req_url].
  now rewrite startsWith_app_self.
Qed.

Lemma services_segmenter (w : world) (text : jsstring) st :
  services (trace (fetched (segment_request w text) st))
  = services (trace st) ++ [Segmenter].
Proof. cbn [fetched trace]. now rewrite services_app. Qed.

(** [fetchContent] contacts the reader at most once, and it has done so
    whenever it returns something truthy. *)
Lemma fetchContent_services (w : world) (url : jsstring) st :
  exists called : bool,
    services (trace (snd (fetchContent w (VStr url) st)))
    = services (trace st) ++ (if called then [Reader] else [])
    /\ (forall v, fst (fetchContent w (VStr url) st) = Return v ->
                  truthy v = true -> called = true).
Proof.
  rewrite fetchContent_known. unfold fetch_outcome.
  destruct (startsWith (examined w st url) (u "http")).
  - destruct (import_node_fetch w) as [ [] | e ].
    + exists true. split; [ | reflexivity ].
      destruct (let! r := fetch w (reader_request w (examined w st url)) in
                decode w r);
        cbn [snd]; rewrite services_said, services_reader, services_said;
        now rewrite services_after_prompt.
    + exists false. cbn [fst snd]. split.
      * rewrite !services_said, services_after_prompt. now rewrite app_nil_r.
      * intros v Hv. inversion Hv. discriminate.
  - exists false. cbn [fst snd]. split.
    + rewrite services_said, services_after_prompt. now rewrite app_nil_r.
    + intros v Hv. inversion Hv. discriminate.
Qed.

Lemma segmentText_services (w : world) (content : value) st :
  exists called : bool,
    services (trace (snd (segmentText w content st)))
    = services (trace st) ++ (if called then [Segmenter] else [])
    /\ (forall v, fst (segmentText w content st) = Return v ->
                  truthy v = true -> called = true).
Proof.
  rewrite segmentText_known. unfold segment_outcome.
  destruct (truthy (VStr (trim (segmented_text w st content)))).
  - destruct (import_node_fetch w) as [ [] | e ].
    + exists true. split; [ | reflexivity ].
      destruct (let! r := fetch w (segment_request w (segmented_text w st content)) in
                json r);
        cbn [snd]; rewrite services_said, services_segmenter, services_said;
        now rewrite services_after_prompt.
    + exists false. cbn [fst snd]. split.
      * rewrite !services_said, services_after_prompt. now rewrite app_nil_r.
      * intros v Hv. inversion Hv. discriminate.
  - exists false. cbn [fst snd]. split.
    + rewrite services_said, services_after_prompt. now rewrite app_nil_r.
    + intros v Hv. inversion Hv. discriminate.
Qed.

(** For a non-empty array [generateEmbeddings] throws at once or
    contacts the embedder once. *)
Lemma generateEmbeddings_services (w : world) (item : value) st :
  (exists e, generateEmbeddings w (VArr [item]) st = (Throw e, st))
  \/ (exists r st',
        generateEmbeddings w (VArr [item]) st = (Return r, st')
        /\ services (trace st') = services (trace st) ++ [Embedder]).
Proof.
  destruct (normalize item) as [ t | e ] eqn:Hn.
  - right.
    rewrite (@generateEmbeddings_posts w [item] [t] st);
      [ | discriminate | cbn; now rewrite Hn ].
    cbv zeta.
    destruct (axios_post w embeddings_url (embedding_request [t])
                [authorization w; content_type_json]) as [ data | e ];
      eexists; eexists; (split; [ reflexivity | ]).
    + cbn [posted trace]. rewrite services_app, services_said. reflexivity.
    + rewrite services_said. cbn [posted trace].
      rewrite services_app, services_said. reflexivity.
  - left. exists e. apply generateEmbeddings_throws; [ discriminate | ].
    cbn. now rewrite Hn.
Qed.

Lemma generateGeminiResponse_services (w : world) (document question : value) st :
  exists r st',
    generateGeminiResponse w document question st = (Return r, st')
    /\ services (trace st') = services (trace st) ++ [Model].
Proof.
  rewrite generateGeminiResponse_run. cbv zeta.
  destruct (generateContent w (formattedPrompt document question));
    eexists; eexists; (split; [ reflexivity | ]).
  - cbn [submitted trace]. now rewrite services_app.
  - rewrite services_said. cbn [submitted trace]. now rewrite services_app.
Qed.

Lemma services_at_stage1 st : services (trace (at_stage1 st)) = services (trace st).
Proof.
  unfold at_stage1. cbn [answered trace]. rewrite services_app, services_said.
  cbn. apply app_nil_r.
Qed.

(** X20.  In every run of [main] the services are contacted in the
    order reader, segmenter, embedder, model, each at most once.  The
    requests of a run are none, or the reader alone, or reader and
    segmenter, or all four; or they are reader, segmenter and embedder
    without the model, and then [main] is waiting for ever at its
    second question. *)
Theorem main_contacts_services_in_order (w : world) st :
  exists calls,
    services (trace (snd (main w st))) = services (trace st) ++ calls
    /\ (In calls [ [];
                   [Reader];
                   [Reader; Segmenter];
                   [Reader; Segmenter; Embedder; Model] ]
        \/ (calls = [Reader; Segmenter; Embedder]
            /\ fst (main w st) = Unsettled)).
Proof.
  rewrite main_unfold.
  destruct (fetchContent_services w (typed w (asked st)) (at_stage1 st))
    as [ called1 [ Hs1 Ht1 ] ].
  rewrite services_at_stage1 in Hs1.
  destruct (fetchContent w (VStr (typed w (asked st))) (at_stage1 st))
    as [ [ c | e1 ] s2 ]; cbn [fst snd] in Hs1, Ht1.
  2: { exists (if called1 then [Reader] else []). split; [ exact Hs1 | ].
       left. destruct called1; cbn; auto. }
  destruct (truthy c) eqn:Hc.
  2: { exists (if called1 then [Reader] else []). cbn [snd closed trace]. split.
       - now rewrite services_said.
       - left. destruct called1; cbn; auto. }
  rewrite (Ht1 c eq_refl Hc) in Hs1. clear Ht1 called1.
  destruct (segmentText_services w c (at_stage2 s2)) as [ called2 [ Hs2 Ht2 ] ].
  unfold at_stage2 in Hs2 at 2. rewrite services_said, Hs1 in Hs2.
  destruct (segmentText w c (at_stage2 s2)) as [ [ sc | e2 ] s3 ];
    cbn [fst snd] in Hs2, Ht2.
  2: { exists ([Reader] ++ if called2 then [Segmenter] else []).
       split; [ now rewrite app_assoc | ].
       left. destruct called2; cbn; auto. }
  destruct (truthy sc) eqn:Hsc.
  2: { exists ([Reader] ++ if called2 then [Segmenter] else []).
       cbn [snd closed trace]. split.
       - now rewrite services_said, app_assoc.
       - left. destruct called2; cbn; auto. }
  rewrite (Ht2 sc eq_refl Hsc) in Hs2. clear Ht2 called2.
  destruct (generateEmbeddings_services w sc (at_stage3 s3))
    as [ [ e3 H3 ] | [ emb [ s4 [ H3 Hs3 ] ] ] ]; rewrite H3.
  { exists [Reader; Segmenter]. cbn [snd]. split.
    - unfold at_stage3. rewrite services_said, Hs2.
      now rewrite <- app_assoc.
    - left. cbn; auto. }
  unfold at_stage3 in Hs3. rewrite services_said, Hs2 in Hs3.
  destruct (paused s4).
  { exists [Reader; Segmenter; Embedder]. cbn [fst snd waiting trace]. split.
    - rewrite services_app, services_said, Hs3. cbn.
      now rewrite app_nil_r, <- !app_assoc.
    - right. now split. }
  destruct (generateGeminiResponse_services w sc (VStr (typed w (asked s4)))
              (at_stage4 s4)) as [ a [ s5 [ H4 Hs4 ] ] ].
  rewrite H4.
  assert (Hat4 : services (trace (at_stage4 s4)) = services (trace s4)).
  { unfold at_stage4. cbn [answered trace]. rewrite services_app, services_said.
    cbn. apply app_nil_r. }
  rewrite Hat4, Hs3 in Hs4.
  exists [Reader; Segmenter; Embedder; Model]. split.
  - destruct (truthy a); cbn [snd closed trace];
      rewrite ?services_said, ?services_shown, ?services_said, Hs4;
      now rewrite <- !app_assoc.
  - left. cbn; auto 6.
Qed.

(* ================================================================== *)
(** ** generateEmbeddings: one request at most *)

(** X21.  Whatever its argument, [generateEmbeddings] sends at most one
    request, never a second one after a failure; when it sends one it is
    the POST of a [jina-clip-v2] request to
    [https://api.jina.ai/v1/embeddings] with the token and the JSON
    content type in the headers. *)
Theorem generateEmbeddings_sends_at_most_one_request
    (w : world) (inputs : value) st :
  exists calls,
    network_calls (trace (snd (generateEmbeddings w inputs st)))
    = network_calls (trace st) ++ calls
    /\ (calls = []
        \/ exists entries,
             calls = [AxiosPost (u "https://api.jina.ai/v1/embeddings")
                        (VObj [(u "model", VStr (u "jina-clip-v2"));
                               (u "normalized", VBool true);
                               (u "embedding_type", VStr (u "float"));
                               (u "input", VArr entries)])
                        [(u "Authorization", JINA_AUTH_TOKEN w);
                         (u "Content-Type", VStr (u "application/json"))]]).
Proof.
  destruct st as [ tr n ].
  unfold generateEmbeddings.
  set (inputs' := match inputs with VUndefined => VArr [] | _ => inputs end).
  cbv beta iota delta [bind lift ret tryCatch log emit do_post trace asked snd].
  assert (Hlog : forall v, network_calls (tr ++ [Log v]) = network_calls tr ++ [])
    by (intros v; now rewrite network_calls_app).
  destruct (truthy inputs'); cbv beta iota delta [negb];
    [ | exists []; split; [ apply Hlog | now left ] ].
  destruct (prop_length inputs') as [ len | e ];
    [ | exists []; split; [ now rewrite app_nil_r | now left ] ].
  destruct (is_zero len);
    [ exists []; split; [ apply Hlog | now left ] | ].
  destruct (array_map "inputs" normalize inputs') as [ strs | e ];
    [ | exists []; split; [ now rewrite app_nil_r | now left ] ].
  exists [AxiosPost embeddings_url (embedding_request strs)
            [authorization w; content_type_json]].
  split; [ | right; eexists; reflexivity ].
  destruct (axios_post w embeddings_url (embedding_request strs)
              [authorization w; content_type_json]) as [ data | e ];
    rewrite ?network_calls_app; cbn [network_calls filter is_network_call];
    now rewrite ?app_nil_r.
Qed.

(* ================================================================== *)
(** ** What the segmenter and the embedder hand back *)

(** X22.  [segmentText] parses whatever the service answers as JSON and
    returns the parsed value as it is: unlike [fetchContent] it never
    looks at the content type.  A body that does not parse gives
    [null]. *)
Theorem segmentText_returns_parsed_json
    (w : world) (content : value) (r : response) st :
  truthy (VStr (trim (segmented_text w st content))) = true ->
  import_node_fetch w = Return tt ->
  fetch w (segment_request w (segmented_text w st content)) = Return r ->
  fst (segmentText w content st)
  = match json r with
    | Return data => Return data
    | Throw _ => Return VNull
    end.
Proof.
  intros Htext Himport Hfetch.
  rewrite segmentText_known. unfold segment_outcome.
  rewrite Htext, Himport, Hfetch. cbn [obind].
  destruct (json r); reflexivity.
Qed.

Lemma segmentText_returns_parsed_json_witness :
  fst (segmentText (serving html_page) (VStr (u "Hello world")) start)
  = match json html_page with
    | Return data => Return data
    | Throw _ => Return VNull
    end.
Proof.
  apply (@segmentText_returns_parsed_json (serving html_page)
           (VStr (u "Hello world")) html_page start);
    reflexivity.
Defined.

(** X23.  For a non-empty array whose elements all have a normal form,
    [generateEmbeddings] returns the data of the response untouched when
    the POST resolves, whatever that data is, and [null] when the POST is
    rejected; there is no partial result. *)
Theorem generateEmbeddings_returns_response_data
    (w : world) (items : list value) st :
  items <> [] ->
  forallb (fun item => negb (raises (normalize item))) items = true ->
  exists strs,
    map_items normalize items = Return strs
    /\ fst (generateEmbeddings w (VArr items) st)
       = match axios_post w embeddings_url (embedding_request strs)
                 [authorization w; content_type_json] with
         | Return data => Return data
         | Throw _ => Return VNull
         end.
Proof.
  intros Hne Hall.
  destruct (map_items_defined normalize items Hall) as [ strs Hmap ].
  exists strs. split; [ assumption | ].
  rewrite (generateEmbeddings_posts w st Hne Hmap). cbv zeta.
  destruct (axios_post w embeddings_url (embedding_request strs)
              [authorization w; content_type_json]); reflexivity.
Qed.

Lemma generateEmbeddings_returns_response_data_witness :
  exists strs,
    map_items normalize [VStr (u "Hello world")] = Return strs
    /\ fst (generateEmbeddings embedder_down (VArr [VStr (u "Hello world")]) start)
       = match axios_post embedder_down embeddings_url (embedding_request strs)
                 [authorization embedder_down; content_type_json] with
         | Return data => Return data
         | Throw _ => Return VNull
         end.
Proof.
  apply (@generateEmbeddings_returns_response_data embedder_down
           [VStr (u "Hello world")] start).
  - discriminate.
  - reflexivity.
Defined.

(** X24.  [main] stops after the segmentation for every falsy result,
    not only for [null]: a segmenter that answers [false], [0] or the
    empty string ends the run with [Text segmentation failed.
    Exiting.] as well. *)
Theorem main_stops_when_segmentation_is_falsy
    (w : world) (st st2 st3 : state) (content segmented : value) :
  fetchContent w (VStr (typed w (asked st))) (at_stage1 st)
    = (Return content, st2) ->
  truthy content = true ->
  segmentText w content (at_stage2 st2) = (Return segmented, st3) ->
  truthy segmented = false ->
  main w st
  = (Return VUndefined, closed (said (u "Text segmentation failed. Exiting.") st3)).
Proof.
  intros Hfetch Hcontent Hsegment Hfalsy.
  now rewrite main_unfold, Hfetch, Hcontent, Hsegment, Hfalsy.
Qed.

Lemma main_stops_when_segmentation_is_falsy_witness :
  let w := refusing_segmenter in
  let st2 := snd (fetchContent w (VStr (u "https://example.com")) (at_stage1 start)) in
  let st3 := snd (segmentText w segments (at_stage2 st2)) in
  main w start
  = (Return VUndefined, closed (said (u "Text segmentation failed. Exiting.") st3)).
Proof.
  intros w st2 st3.
  apply (@main_stops_when_segmentation_is_falsy w start st2 st3
           segments (VBool false));
    reflexivity.
Defined.
